(** * Si5351 frequency planner and register encoder (src/src/si5351.cpp)

    A shallow embedding of the planning functions [si5351_Calc] and
    [si5351_CalcIQ], of the register encoder [si5351_writeBulk] and of the
    programming functions [si5351_SetupPLL] and [si5351_SetupOutput],
    followed by the properties established about them.

    Integers of the program are [Z].  An [int32_t] result is reduced by
    [Int32.wrap]; [/] and [%] are the truncating [Z.quot] and [Z.rem] and
    fail on a zero divisor; [>>], [&], [|] and [<<] are [Z.shiftr],
    [Z.land], [Z.lor] and [Z.shiftl]; a [uint8_t] argument is reduced
    modulo 256. *)

From Stdlib Require Import ZArith Lia List Bool QArith Qabs Qfield.
From coqutil Require Import Z.bitblast.
Import ListNotations.
Local Open Scope Z_scope.

(** ** Machine arithmetic *)

Module Int32.

Definition min_signed : Z := - 2 ^ 31.
Definition max_signed : Z := 2 ^ 31 - 1.

Definition in_range (z : Z) : Prop := min_signed <= z <= max_signed.

(** Two's complement reduction to 32 bits. *)
Definition wrap (z : Z) : Z := (z + 2 ^ 31) mod 2 ^ 32 - 2 ^ 31.

Definition add (a b : Z) : Z := wrap (a + b).
Definition sub (a b : Z) : Z := wrap (a - b).
Definition mul (a b : Z) : Z := wrap (a * b).

(** The operand pairs on which [a / b] and [a % b] have no defined result:
    a zero divisor, and [INT32_MIN / -1], whose quotient does not fit in
    32 bits. *)
Definition traps (a b : Z) : bool :=
  (b =? 0) || ((b =? -1) && (a =? min_signed)).

(** [a / b] and [a % b], truncating; no result where the division traps. *)
Definition quot (a b : Z) : option Z :=
  if traps a b then None else Some (wrap (Z.quot a b)).
Definition rem (a b : Z) : option Z :=
  if traps a b then None else Some (Z.rem a b).

End Int32.

Definition uint8 (z : Z) : Z := z mod 256.

(** ** The option monad of the planners *)

Definition obind {A B : Type} (c : option A) (k : A -> option B) : option B :=
  match c with
  | Some a => k a
  | None => None
  end.

Declare Scope plan_scope.
Delimit Scope plan_scope with plan.
Notation "x <- c ;; k" := (obind c (fun x => k))
  (at level 61, c at next level, right associativity) : plan_scope.

(** ** Types and constants of si5351.h *)

(** Modelled from the spec: the header si5351.h is not part of the sources.
    [si5351PLL_t] selects PLL A or PLL B. *)
Inductive si5351PLL_t : Type :=
| SI5351_PLL_A
| SI5351_PLL_B.

(** Modelled from the spec: the header si5351.h is not part of the sources.
    [si5351RDiv_t] is the exponent of the R divider: the final output is
    divided by two to that power. *)
Definition SI5351_R_DIV_1 : Z := 0.
Definition SI5351_R_DIV_64 : Z := 6.

(** Modelled from the spec: the header si5351.h is not part of the sources.
    The register map of section 6; each name carries its address. *)
Definition SI5351_REGISTER_16_CLK0_CONTROL : Z := 16.
Definition SI5351_REGISTER_17_CLK1_CONTROL : Z := 17.
Definition SI5351_REGISTER_18_CLK2_CONTROL : Z := 18.
Definition SI5351_REGISTER_22_CLK6_CONTROL : Z := 22.
Definition SI5351_REGISTER_23_CLK7_CONTROL : Z := 23.
Definition SI5351_REGISTER_42_MULTISYNTH0_PARAMETERS_1 : Z := 42.
Definition SI5351_REGISTER_50_MULTISYNTH1_PARAMETERS_1 : Z := 50.
Definition SI5351_REGISTER_58_MULTISYNTH2_PARAMETERS_1 : Z := 58.
Definition SI5351_REGISTER_165_CLK0_INITIAL_PHASE_OFFSET : Z := 165.
Definition SI5351_REGISTER_166_CLK1_INITIAL_PHASE_OFFSET : Z := 166.
Definition SI5351_REGISTER_167_CLK2_INITIAL_PHASE_OFFSET : Z := 167.
Definition SI5351_REGISTER_177_PLL_RESET : Z := 177.

(** Modelled from the spec: the header si5351.h is not part of the sources.
    [si5351PLLConfig_t], with the fields the code reads and writes.
    [allowIntegerMode] is a C truth value: zero is false. *)
Module PLLConfig.
Record t : Type := mk {
  mult : Z;
  num : Z;
  denom : Z;
  allowIntegerMode : Z
}.
End PLLConfig.

(** Modelled from the spec: the header si5351.h is not part of the sources.
    [si5351OutputConfig_t], with the fields the code reads and writes. *)
Module OutputConfig.
Record t : Type := mk {
  allowIntegerMode : Z;
  div : Z;
  num : Z;
  denom : Z;
  rdiv : Z;
  inverted : Z
}.
End OutputConfig.

(** ** Frequency planner *)

Section Planner.
Local Open Scope plan_scope.

(** The global [si5351Correction], set once by [si5351_Init]. *)
Variable si5351Correction : Z.

(** Lines 200 and 273:
    [Fclk = Fclk - ((Fclk/1000000)*si5351Correction)/100]. *)
Definition apply_correction (Fclk : Z) : option Z :=
  q <- Int32.quot Fclk 1000000 ;;
  d <- Int32.quot (Int32.mul q si5351Correction) 100 ;;
  Some (Int32.sub Fclk d).

(** Lines 185-186 of [si5351_Calc]: the clamp. *)
Definition Calc_clamp (Fclk : Z) : Z :=
  if Fclk <? 8000 then 8000
  else if Fclk >? 160000000 then 160000000
  else Fclk.

(** Lines 185-197 of [si5351_Calc]: the clamp, then the choice of the
    R divider, with the target scaled by 64 below 1 MHz. *)
Definition Calc_prescale (Fclk : Z) (out_conf : OutputConfig.t)
  : Z * OutputConfig.t :=
  let Fclk := Calc_clamp Fclk in
  let allowIntegerMode := 1 in
  if Fclk <? 1000000
  then (Int32.mul Fclk 64,
        OutputConfig.mk allowIntegerMode (OutputConfig.div out_conf)
          (OutputConfig.num out_conf) (OutputConfig.denom out_conf)
          SI5351_R_DIV_64 (OutputConfig.inverted out_conf))
  else (Fclk,
        OutputConfig.mk allowIntegerMode (OutputConfig.div out_conf)
          (OutputConfig.num out_conf) (OutputConfig.denom out_conf)
          SI5351_R_DIV_1 (OutputConfig.inverted out_conf)).

(** Lines 214-252 of [si5351_Calc]: the search for a, b, c (PLL) and
    x, y, z (multisynth), and the stores into the two structures. *)
Definition Calc_solve (Fclk : Z) (pll_conf : PLLConfig.t)
    (out_conf : OutputConfig.t) : option (PLLConfig.t * OutputConfig.t) :=
  let Fxtal := 25000000 in
  abcxyz <-
    (if Fclk <? 81000000 then
       let a := 36 in
       let b := 0 in
       let c := 1 in
       let Fpll := 900000000 in
       x <- Int32.quot Fpll Fclk ;;
       let t := Int32.add (Z.shiftr Fclk 20) 1 in
       r <- Int32.rem Fpll Fclk ;;
       y <- Int32.quot r t ;;
       z <- Int32.quot Fclk t ;;
       Some (a, b, c, x, y, z)
     else
       let x :=
         if Fclk >=? 150000000 then 4
         else if Fclk >=? 100000000 then 6
         else 8 in
       let y := 0 in
       let z := 1 in
       let numerator := Int32.mul x Fclk in
       a <- Int32.quot numerator Fxtal ;;
       let t := Int32.add (Z.shiftr Fxtal 20) 1 in
       r <- Int32.rem numerator Fxtal ;;
       b <- Int32.quot r t ;;
       c <- Int32.quot Fxtal t ;;
       Some (a, b, c, x, y, z)) ;;
  let '(a, b, c, x, y, z) := abcxyz in
  Some (PLLConfig.mk a b c (PLLConfig.allowIntegerMode pll_conf),
        OutputConfig.mk (OutputConfig.allowIntegerMode out_conf) x y z
          (OutputConfig.rdiv out_conf) (OutputConfig.inverted out_conf)).

(** [si5351_Calc], lines 184-253.  The two structures behind the
    pointers come in and go out; a field the function does not store
    keeps its value. *)
Definition si5351_Calc (Fclk : Z) (pll_conf : PLLConfig.t)
    (out_conf : OutputConfig.t) : option (PLLConfig.t * OutputConfig.t) :=
  let '(Fclk, out_conf) := Calc_prescale Fclk out_conf in
  Fclk <- apply_correction Fclk ;;
  Calc_solve Fclk pll_conf out_conf.

(** Lines 269-270 of [si5351_CalcIQ]: the clamp. *)
Definition CalcIQ_clamp (Fclk : Z) : Z :=
  if Fclk <? 1400000 then 1400000
  else if Fclk >? 100000000 then 100000000
  else Fclk.

(** Lines 275-299 of [si5351_CalcIQ]: integer mode off, no R divider,
    the divider by range, then the PLL setting that gives
    [Fclk * div]. *)
Definition CalcIQ_solve (Fclk : Z) (pll_conf : PLLConfig.t)
    (out_conf : OutputConfig.t) : option (PLLConfig.t * OutputConfig.t) :=
  let Fxtal := 25000000 in
  let allowIntegerMode := 0 in
  let rdiv := SI5351_R_DIV_1 in
  div <-
    (if Fclk <? 4900000 then Some 127
     else if Fclk <? 8000000 then Int32.quot 625000000 Fclk
     else Int32.quot 900000000 Fclk) ;;
  let num := 0 in
  let denom := 1 in
  let Fpll := Int32.mul Fclk div in
  mult <- Int32.quot Fpll Fxtal ;;
  r <- Int32.rem Fpll Fxtal ;;
  pnum <- Int32.quot r 24 ;;
  pdenom <- Int32.quot Fxtal 24 ;;
  Some (PLLConfig.mk mult pnum pdenom (PLLConfig.allowIntegerMode pll_conf),
        OutputConfig.mk allowIntegerMode div num denom rdiv
          (OutputConfig.inverted out_conf)).

(** [si5351_CalcIQ], lines 265-300. *)
Definition si5351_CalcIQ (Fclk : Z) (pll_conf : PLLConfig.t)
    (out_conf : OutputConfig.t) : option (PLLConfig.t * OutputConfig.t) :=
  let Fclk := CalcIQ_clamp Fclk in
  Fclk <- apply_correction Fclk ;;
  CalcIQ_solve Fclk pll_conf out_conf.

End Planner.

(** ** Register writes

    The I2C traffic is the list of (register, data) transactions issued so
    far, oldest first.  A computation can fail: a division with no
    defined result (a zero divisor, or INT32_MIN / -1) yields nothing. *)

Definition bus : Type := list (Z * Z).

Definition I2C (A : Type) : Type := bus -> option (A * bus).

Definition i2c_ret {A : Type} (a : A) : I2C A := fun w => Some (a, w).

Definition i2c_bind {A B : Type} (c : I2C A) (k : A -> I2C B) : I2C B :=
  fun w =>
    match c w with
    | Some (a, w') => k a w'
    | None => None
    end.

Definition i2c_lift {A : Type} (c : option A) : I2C A :=
  fun w =>
    match c with
    | Some a => Some (a, w)
    | None => None
    end.

Declare Scope i2c_scope.
Delimit Scope i2c_scope with i2c.
Notation "x <- c ;; k" := (i2c_bind c (fun x => k))
  (at level 61, c at next level, right associativity) : i2c_scope.
Notation "c ;;; k" := (i2c_bind c (fun _ => k))
  (at level 61, right associativity) : i2c_scope.

Section Programmer.
Local Open Scope i2c_scope.

(** The status [Wire.endTransmission] reports for the transaction that
    ends the given traffic; zero is success. *)
Variable Wire_endTransmission : bus -> Z.

(** [si5351_write], lines 351-367. *)
Definition si5351_write (reg data : Z) : I2C Z :=
  fun w =>
    let w' := w ++ [(uint8 reg, uint8 data)] in
    let error := uint8 (Wire_endTransmission w') in
    Some (if error =? 0 then 0 else 1, w').

(** [si5351_writeBulk], lines 379-388. *)
Definition si5351_writeBulk (baseaddr P1 P2 P3 divBy4 rdiv : Z)
  : I2C unit :=
  si5351_write baseaddr (Z.land (Z.shiftr P3 8) 0xFF) ;;;
  si5351_write (baseaddr + 1) (Z.land P3 0xFF) ;;;
  si5351_write (baseaddr + 2)
    (Z.lor (Z.lor (Z.land (Z.shiftr P1 16) 0x3)
                  (Z.shiftl (Z.land divBy4 0x3) 2))
           (Z.shiftl (Z.land rdiv 0x7) 4)) ;;;
  si5351_write (baseaddr + 3) (Z.land (Z.shiftr P1 8) 0xFF) ;;;
  si5351_write (baseaddr + 4) (Z.land P1 0xFF) ;;;
  si5351_write (baseaddr + 5)
    (Z.lor (Z.land (Z.shiftr P3 12) 0xF0) (Z.land (Z.shiftr P2 16) 0xF)) ;;;
  si5351_write (baseaddr + 6) (Z.land (Z.shiftr P2 8) 0xFF) ;;;
  si5351_write (baseaddr + 7) (Z.land P2 0xFF) ;;;
  i2c_ret tt.

(** [si5351_SetupPLL], lines 66-94. *)
Definition si5351_SetupPLL (pll : si5351PLL_t) (conf : PLLConfig.t)
  : I2C unit :=
  let mult := PLLConfig.mult conf in
  let num := PLLConfig.num conf in
  let denom := PLLConfig.denom conf in
  let allowIntegerMode := PLLConfig.allowIntegerMode conf in
  q <- i2c_lift (Int32.quot (Int32.mul 128 num) denom) ;;
  let P1 := Int32.sub (Int32.add (Int32.mul 128 mult) q) 512 in
  P2 <- i2c_lift (Int32.rem (Int32.mul 128 num) denom) ;;
  let P3 := denom in
  let intCtlAddr :=
    match pll with
    | SI5351_PLL_A => SI5351_REGISTER_22_CLK6_CONTROL
    | SI5351_PLL_B => SI5351_REGISTER_23_CLK7_CONTROL
    end in
  (if negb (allowIntegerMode =? 0) && (num =? 0) && (Z.rem mult 2 =? 0)
   then si5351_write intCtlAddr (Z.lor (Z.shiftl 1 7) (Z.shiftl 1 6)) ;;;
        i2c_ret tt
   else i2c_ret tt) ;;;
  let baseaddr :=
    match pll with
    | SI5351_PLL_A => 26
    | SI5351_PLL_B => 34
    end in
  si5351_writeBulk baseaddr P1 P2 P3 0 SI5351_R_DIV_1 ;;;
  si5351_write SI5351_REGISTER_177_PLL_RESET
    (Z.lor (Z.shiftl 1 7) (Z.shiftl 1 5)) ;;;
  i2c_ret tt.

(** [si5351_SetupOutput], lines 106-174.  The result is the [int] the
    function returns. *)
Definition si5351_SetupOutput (output : Z) (pllSource : si5351PLL_t)
    (driveStrength : Z) (conf : OutputConfig.t) (phaseOffset : Z)
  : I2C Z :=
  let div := OutputConfig.div conf in
  let num := OutputConfig.num conf in
  let denom := OutputConfig.denom conf in
  let inverted := uint8 (Z.land (OutputConfig.inverted conf) 0x01) in
  if output >? 2 then i2c_ret 1
  else if (OutputConfig.allowIntegerMode conf =? 0)
          && ((div <? 8) || ((div =? 8) && (num =? 0)))
  then i2c_ret 2
  else
    P123 <-
      (if div =? 4 then i2c_ret (0, 0, 1, 0x3)
       else
         q <- i2c_lift (Int32.quot (Int32.mul 128 num) denom) ;;
         let P1 := Int32.sub (Int32.add (Int32.mul 128 div) q) 512 in
         P2 <- i2c_lift (Int32.rem (Int32.mul 128 num) denom) ;;
         let P3 := denom in
         i2c_ret (P1, P2, P3, 0)) ;;
    let '(P1, P2, P3, divBy4) := P123 in
    let '(baseaddr, phaseOffsetRegister, clkControlRegister) :=
      match output with
      | 0 => (SI5351_REGISTER_42_MULTISYNTH0_PARAMETERS_1,
              SI5351_REGISTER_165_CLK0_INITIAL_PHASE_OFFSET,
              SI5351_REGISTER_16_CLK0_CONTROL)
      | 1 => (SI5351_REGISTER_50_MULTISYNTH1_PARAMETERS_1,
              SI5351_REGISTER_166_CLK1_INITIAL_PHASE_OFFSET,
              SI5351_REGISTER_17_CLK1_CONTROL)
      | 2 => (SI5351_REGISTER_58_MULTISYNTH2_PARAMETERS_1,
              SI5351_REGISTER_167_CLK2_INITIAL_PHASE_OFFSET,
              SI5351_REGISTER_18_CLK2_CONTROL)
      | _ => (0, 0, 0)
      end in
    let clkControl := uint8 (Z.lor 0x0C driveStrength) in
    let clkControl := uint8 (Z.lor clkControl (Z.shiftl inverted 4)) in
    let clkControl :=
      match pllSource with
      | SI5351_PLL_B => uint8 (Z.lor clkControl (Z.shiftl 1 5))
      | SI5351_PLL_A => clkControl
      end in
    let clkControl :=
      if negb (OutputConfig.allowIntegerMode conf =? 0)
         && ((num =? 0) || (div =? 4))
      then uint8 (Z.lor clkControl (Z.shiftl 1 6))
      else clkControl in
    si5351_write clkControlRegister clkControl ;;;
    si5351_writeBulk baseaddr P1 P2 P3 divBy4 (OutputConfig.rdiv conf) ;;;
    si5351_write phaseOffsetRegister (Z.land phaseOffset 0x7F) ;;;
    i2c_ret 0.

End Programmer.

(** ** Initialisation, the per-channel setups and the output enable *)

(** Modelled from the spec: the header si5351.h is not part of the sources.
    The registers of the register map of section 6 that the functions
    below add to the ones above; each name carries its address. *)
Definition SI5351_REGISTER_3_OUTPUT_ENABLE_CONTROL : Z := 3.
Definition SI5351_REGISTER_19_CLK3_CONTROL : Z := 19.
Definition SI5351_REGISTER_20_CLK4_CONTROL : Z := 20.
Definition SI5351_REGISTER_21_CLK5_CONTROL : Z := 21.
Definition SI5351_REGISTER_183_CRYSTAL_INTERNAL_LOAD_CAPACITANCE : Z := 183.

Section Entry.
Local Open Scope i2c_scope.

Variable Wire_endTransmission : bus -> Z.

(** The value of [SI5351_CRYSTAL_LOAD_10PF], which the missing header
    si5351.h defines. *)
Variable SI5351_CRYSTAL_LOAD_10PF : Z.

(** [si5351_Init] with three arguments, lines 18-46.  The result is the
    value the function stores in the global [si5351Correction];
    [Wire.begin] issues no register write. *)
Definition si5351_Init (correction i2c_sda i2c_scl : Z) : I2C Z :=
  let si5351Correction := correction in
  si5351_write Wire_endTransmission
    SI5351_REGISTER_3_OUTPUT_ENABLE_CONTROL 0xFF ;;;
  si5351_write Wire_endTransmission SI5351_REGISTER_16_CLK0_CONTROL 0x80 ;;;
  si5351_write Wire_endTransmission SI5351_REGISTER_17_CLK1_CONTROL 0x80 ;;;
  si5351_write Wire_endTransmission SI5351_REGISTER_18_CLK2_CONTROL 0x80 ;;;
  si5351_write Wire_endTransmission SI5351_REGISTER_19_CLK3_CONTROL 0x80 ;;;
  si5351_write Wire_endTransmission SI5351_REGISTER_20_CLK4_CONTROL 0x80 ;;;
  si5351_write Wire_endTransmission SI5351_REGISTER_21_CLK5_CONTROL 0x80 ;;;
  si5351_write Wire_endTransmission SI5351_REGISTER_22_CLK6_CONTROL 0x80 ;;;
  si5351_write Wire_endTransmission SI5351_REGISTER_23_CLK7_CONTROL 0x80 ;;;
  let crystalLoad := SI5351_CRYSTAL_LOAD_10PF in
  si5351_write Wire_endTransmission
    SI5351_REGISTER_183_CRYSTAL_INTERNAL_LOAD_CAPACITANCE crystalLoad ;;;
  i2c_ret si5351Correction.

(** [si5351_Init] with one argument, lines 56-58. *)
Definition si5351_Init_1 (correction : Z) : I2C Z :=
  si5351_Init correction 0 0.

(** [si5351_SetupCLK0], lines 308-315.  [pll_conf] and [out_conf] are
    the contents of the two local structures at their declaration: the
    code does not initialise them, and the fields the planner does not
    store are read as they are.  The code returned by
    [si5351_SetupOutput] is dropped. *)
Definition si5351_SetupCLK0 (si5351Correction Fclk driveStrength : Z)
    (pll_conf : PLLConfig.t) (out_conf : OutputConfig.t) : I2C unit :=
  confs <- i2c_lift (si5351_Calc si5351Correction Fclk pll_conf out_conf) ;;
  let '(pll_conf, out_conf) := confs in
  si5351_SetupPLL Wire_endTransmission SI5351_PLL_A pll_conf ;;;
  si5351_SetupOutput Wire_endTransmission 0 SI5351_PLL_A driveStrength
    out_conf 0 ;;;
  i2c_ret tt.

(** [si5351_SetupCLK2], lines 323-330. *)
Definition si5351_SetupCLK2 (si5351Correction Fclk driveStrength : Z)
    (pll_conf : PLLConfig.t) (out_conf : OutputConfig.t) : I2C unit :=
  confs <- i2c_lift (si5351_Calc si5351Correction Fclk pll_conf out_conf) ;;
  let '(pll_conf, out_conf) := confs in
  si5351_SetupPLL Wire_endTransmission SI5351_PLL_B pll_conf ;;;
  si5351_SetupOutput Wire_endTransmission 2 SI5351_PLL_B driveStrength
    out_conf 0 ;;;
  i2c_ret tt.

(** [si5351_EnableOutputs], lines 340-342. *)
Definition si5351_EnableOutputs (enabled : Z) : I2C unit :=
  si5351_write Wire_endTransmission
    SI5351_REGISTER_3_OUTPUT_ENABLE_CONTROL (Z.lnot enabled) ;;;
  i2c_ret tt.

End Entry.

(** ** Statements of the specification

    The definitions of this part follow the words of the specification;
    the theorems compare them with the code above. *)

(** The PLL frequency a PLL setting stands for:
    [Fxtal * (mult + num/denom)], an exact rational number. *)
Definition pll_frequency (pll : PLLConfig.t) : Q :=
  ((25000000 # 1)
   * (inject_Z (PLLConfig.mult pll)
      + inject_Z (PLLConfig.num pll) / inject_Z (PLLConfig.denom pll)))%Q.

(** The output frequency a pair of settings stands for:
    [Fxtal * (mult + num/denom) / ((div + y/z) * 2^rdiv)]. *)
Definition found_frequency (pll : PLLConfig.t) (out : OutputConfig.t) : Q :=
  (pll_frequency pll
   / ((inject_Z (OutputConfig.div out)
       + inject_Z (OutputConfig.num out) / inject_Z (OutputConfig.denom out))
      * inject_Z (2 ^ OutputConfig.rdiv out)))%Q.

(** Bits [hi] down to [lo] of [x], as a number. *)
Definition bits (hi lo x : Z) : Z := (x / 2 ^ lo) mod 2 ^ (hi - lo + 1).

(** The eight data bytes of a parameter block, in the words of
    section 4.3. *)
Definition block_layout (P1 P2 P3 divBy4 rdiv : Z) : list Z :=
  [ bits 15 8 P3;
    bits 7 0 P3;
    Z.lor (Z.lor (bits 17 16 P1) (Z.shiftl divBy4 2)) (Z.shiftl rdiv 4);
    bits 15 8 P1;
    bits 7 0 P1;
    Z.lor (Z.shiftl (bits 19 16 P3) 4) (bits 19 16 P2);
    bits 15 8 P2;
    bits 7 0 P2 ].

(** The eight register addresses of a parameter block, each reduced to
    the eight bits of a register address. *)
Definition block_addresses (baseaddr : Z) : list Z :=
  map (fun k => uint8 (baseaddr + k)) [0; 1; 2; 3; 4; 5; 6; 7].

(** The correction of section 4.1, step 4, in exact integer arithmetic
    with truncating division. *)
Definition corrected_target (correction Fclk : Z) : Z :=
  Fclk - Z.quot (Z.quot Fclk 1000000 * correction) 100.


(** The value a register holds after the given traffic: the data of the
    last write to it, if there was one. *)
Fixpoint last_write (reg : Z) (w : bus) : option Z :=
  match w with
  | [] => None
  | (a, d) :: w' =>
      match last_write reg w' with
      | Some v => Some v
      | None => if a =? reg then Some d else None
      end
  end.

(** The registers a piece of traffic writes to. *)
Definition written (w : bus) : list Z := map fst w.

(** * Properties *)

(** ** Machine arithmetic *)

Lemma wrap_small z : Int32.in_range z -> Int32.wrap z = z.
Proof.
  unfold Int32.in_range, Int32.min_signed, Int32.max_signed, Int32.wrap.
  intros H. rewrite Z.mod_small; lia.
Qed.

Lemma wrap_in_range z : Int32.in_range (Int32.wrap z).
Proof.
  unfold Int32.in_range, Int32.min_signed, Int32.max_signed, Int32.wrap.
  pose proof (Z.mod_pos_bound (z + 2 ^ 31) (2 ^ 32) ltac:(lia)). lia.
Qed.

Lemma traps_false_iff a b :
  Int32.traps a b = false
  <-> b <> 0 /\ ~ (b = -1 /\ a = Int32.min_signed).
Proof.
  unfold Int32.traps.
  destruct (Z.eqb_spec b 0), (Z.eqb_spec b (-1)),
    (Z.eqb_spec a Int32.min_signed); cbn [orb andb];
    intuition (try discriminate; try congruence).
Qed.

Lemma traps_true_iff a b :
  Int32.traps a b = true
  <-> b = 0 \/ (b = -1 /\ a = Int32.min_signed).
Proof.
  unfold Int32.traps.
  destruct (Z.eqb_spec b 0), (Z.eqb_spec b (-1)),
    (Z.eqb_spec a Int32.min_signed); cbn [orb andb];
    intuition (try discriminate; try congruence).
Qed.

Lemma traps_zero a : Int32.traps a 0 = true.
Proof. reflexivity. Qed.

Lemma traps_pos a b : 0 < b -> Int32.traps a b = false.
Proof. intros H. apply traps_false_iff. lia. Qed.

Lemma traps_false a b :
  b <> 0 -> b <> -1 \/ a <> - 2147483648 -> Int32.traps a b = false.
Proof.
  intros H0 H1. apply traps_false_iff. split; [exact H0 |].
  unfold Int32.min_signed. change (- 2 ^ 31) with (- 2147483648). lia.
Qed.

Lemma quot_some a b :
  b <> 0 -> Int32.in_range (Z.quot a b) -> Int32.quot a b = Some (Z.quot a b).
Proof.
  intros Hb Hr. unfold Int32.quot.
  rewrite traps_false.
  - now rewrite wrap_small.
  - exact Hb.
  - destruct (Z.eq_dec b (-1)) as [-> | N]; [right | now left].
    intros ->. revert Hr. unfold Int32.in_range, Int32.max_signed.
    change (Z.quot (- 2147483648) (-1)) with 2147483648. lia.
Qed.

Lemma rem_some a b :
  b <> 0 -> b <> -1 \/ a <> - 2147483648 ->
  Int32.rem a b = Some (Z.rem a b).
Proof.
  intros Hb Ha. unfold Int32.rem. now rewrite traps_false.
Qed.

Lemma quot_traps a b : Int32.traps a b = true -> Int32.quot a b = None.
Proof. intros H. unfold Int32.quot. now rewrite H. Qed.

Lemma quot_defined a b :
  Int32.traps a b = false -> Int32.quot a b = Some (Int32.wrap (Z.quot a b)).
Proof. intros H. unfold Int32.quot. now rewrite H. Qed.

Lemma rem_defined a b :
  Int32.traps a b = false -> Int32.rem a b = Some (Z.rem a b).
Proof. intros H. unfold Int32.rem. now rewrite H. Qed.

Lemma in_range_bounds z : - 2147483648 <= z <= 2147483647 -> Int32.in_range z.
Proof.
  unfold Int32.in_range, Int32.min_signed, Int32.max_signed. lia.
Qed.

Lemma shiftr20_bounds F :
  0 <= F ->
  0 <= Z.shiftr F 20
  /\ Z.shiftr F 20 * 1048576 <= F < Z.shiftr F 20 * 1048576 + 1048576.
Proof.
  intros HF. rewrite Z.shiftr_div_pow2 by lia.
  change (2 ^ 20) with 1048576.
  pose proof (Z.div_mod F 1048576 ltac:(lia)).
  pose proof (Z.mod_pos_bound F 1048576 ltac:(lia)).
  split; [apply Z.div_pos; lia | lia].
Qed.

(** Side conditions of [quot_some] and [rem_some]. *)
Ltac solve_quot :=
  solve [ lia
        | apply in_range_bounds; Z.quot_rem_to_equations; nia ].

(** ** The planner, block by block *)

Lemma apply_correction_0 F : Int32.in_range F -> apply_correction 0 F = Some F.
Proof.
  intros HF. unfold apply_correction, Int32.quot, Int32.traps, Int32.mul,
    Int32.sub.
  cbn [Z.eqb orb andb obind]. rewrite Z.mul_0_r. cbn [Z.quot Int32.wrap].
  change (Int32.wrap (Z.quot (Int32.wrap 0) 100)) with 0.
  rewrite Z.sub_0_r. now rewrite wrap_small.
Qed.

Lemma Calc_clamp_bounds F : 8000 <= Calc_clamp F <= 160000000.
Proof.
  unfold Calc_clamp.
  destruct (Z.ltb_spec F 8000); [lia |].
  destruct (Z.gtb_spec F 160000000); lia.
Qed.

Lemma Calc_prescale_eq F out :
  Calc_prescale F out =
  (if Calc_clamp F <? 1000000 then 64 * Calc_clamp F else Calc_clamp F,
   OutputConfig.mk 1 (OutputConfig.div out) (OutputConfig.num out)
     (OutputConfig.denom out)
     (if Calc_clamp F <? 1000000 then SI5351_R_DIV_64 else SI5351_R_DIV_1)
     (OutputConfig.inverted out)).
Proof.
  unfold Calc_prescale.
  pose proof (Calc_clamp_bounds F) as HB.
  destruct (Z.ltb_spec (Calc_clamp F) 1000000); [| reflexivity].
  unfold Int32.mul. rewrite wrap_small by (apply in_range_bounds; lia).
  now rewrite Z.mul_comm.
Qed.

Lemma Calc_solve_low F pll out :
  0 < F < 81000000 ->
  Calc_solve F pll out =
  Some (PLLConfig.mk 36 0 1 (PLLConfig.allowIntegerMode pll),
        OutputConfig.mk (OutputConfig.allowIntegerMode out)
          (Z.quot 900000000 F)
          (Z.quot (Z.rem 900000000 F) (Z.shiftr F 20 + 1))
          (Z.quot F (Z.shiftr F 20 + 1))
          (OutputConfig.rdiv out) (OutputConfig.inverted out)).
Proof.
  intros HF. unfold Calc_solve.
  destruct (Z.ltb_spec F 81000000); [| lia].
  destruct (shiftr20_bounds F ltac:(lia)) as [Hs0 Hs].
  set (s := Z.shiftr F 20) in *.
  unfold Int32.add. rewrite (wrap_small (s + 1)) by (apply in_range_bounds; lia).
  rewrite (quot_some 900000000 F), (rem_some 900000000 F) by solve_quot.
  cbn [obind].
  rewrite (quot_some (Z.rem 900000000 F) (s + 1)), (quot_some F (s + 1))
    by solve_quot.
  reflexivity.
Qed.

Lemma Calc_solve_high F pll out :
  81000000 <= F <= 160000000 ->
  let x := if F >=? 150000000 then 4 else if F >=? 100000000 then 6 else 8 in
  Calc_solve F pll out =
  Some (PLLConfig.mk (Z.quot (x * F) 25000000)
          (Z.quot (Z.rem (x * F) 25000000) 24) 1041666
          (PLLConfig.allowIntegerMode pll),
        OutputConfig.mk (OutputConfig.allowIntegerMode out) x 0 1
          (OutputConfig.rdiv out) (OutputConfig.inverted out))
  /\ 600000000 <= x * F <= 900000000.
Proof.
  intros HF x. unfold Calc_solve.
  destruct (Z.ltb_spec F 81000000); [lia |].
  fold x.
  assert (Hx : 600000000 <= x * F <= 900000000).
  { subst x. destruct (Z.geb_spec F 150000000); [lia |].
    destruct (Z.geb_spec F 100000000); lia. }
  split; [| exact Hx].
  change (Int32.add (Z.shiftr 25000000 20) 1) with 24.
  change (Int32.quot 25000000 24) with (Some 1041666).
  unfold Int32.mul. rewrite (wrap_small (x * F)) by (apply in_range_bounds; lia).
  rewrite (quot_some (x * F) 25000000), (rem_some (x * F) 25000000)
    by solve_quot.
  cbn [obind].
  rewrite (quot_some (Z.rem (x * F) 25000000) 24) by solve_quot.
  reflexivity.
Qed.

Lemma si5351_Calc_0 F pll out :
  si5351_Calc 0 F pll out =
  Calc_solve (if Calc_clamp F <? 1000000 then 64 * Calc_clamp F else Calc_clamp F)
    pll
    (OutputConfig.mk 1 (OutputConfig.div out) (OutputConfig.num out)
       (OutputConfig.denom out)
       (if Calc_clamp F <? 1000000 then SI5351_R_DIV_64 else SI5351_R_DIV_1)
       (OutputConfig.inverted out)).
Proof.
  unfold si5351_Calc. rewrite Calc_prescale_eq.
  pose proof (Calc_clamp_bounds F) as HB.
  rewrite apply_correction_0; [reflexivity |].
  apply in_range_bounds. destruct (Z.ltb_spec (Calc_clamp F) 1000000); lia.
Qed.

Lemma CalcIQ_clamp_bounds F : 1400000 <= CalcIQ_clamp F <= 100000000.
Proof.
  unfold CalcIQ_clamp.
  destruct (Z.ltb_spec F 1400000); [lia |].
  destruct (Z.gtb_spec F 100000000); lia.
Qed.

(** The divider [si5351_CalcIQ] selects for the corrected target. *)
Lemma CalcIQ_solve_total F pll out :
  let div :=
    if F <? 4900000 then 127
    else if F <? 8000000 then Z.quot 625000000 F
    else Z.quot 900000000 F in
  CalcIQ_solve F pll out =
  Some (PLLConfig.mk (Int32.wrap (Z.quot (Int32.mul F div) 25000000))
          (Int32.wrap (Z.quot (Z.rem (Int32.mul F div) 25000000) 24)) 1041666
          (PLLConfig.allowIntegerMode pll),
        OutputConfig.mk 0 div 0 1 SI5351_R_DIV_1 (OutputConfig.inverted out)).
Proof.
  intros div. unfold CalcIQ_solve.
  assert (Hd : (if F <? 4900000 then Some 127
                else if F <? 8000000 then Int32.quot 625000000 F
                else Int32.quot 900000000 F) = Some div).
  { subst div. destruct (Z.ltb_spec F 4900000); [reflexivity |].
    destruct (Z.ltb_spec F 8000000); apply quot_some; solve_quot. }
  rewrite Hd. cbn [obind].
  unfold Int32.quot at 1. cbn [Z.eqb obind].
  unfold Int32.rem. cbn [Z.eqb obind].
  unfold Int32.quot at 1. cbn [Z.eqb obind].
  reflexivity.
Qed.

(** What line 200 computes, for every target and every correction: the
    two divisions never fail, and of the four results only the product
    and the difference can leave the 32 bits. *)
Lemma apply_correction_eq corr F :
  Int32.in_range F ->
  apply_correction corr F =
  Some (Int32.wrap (F - Z.quot (Int32.wrap (Z.quot F 1000000 * corr)) 100)).
Proof.
  intros HF. unfold apply_correction.
  assert (HF' : - 2147483648 <= F <= 2147483647).
  { unfold Int32.in_range, Int32.min_signed, Int32.max_signed in HF. lia. }
  rewrite (quot_some F 1000000) by solve_quot.
  cbn [obind]. unfold Int32.mul.
  pose proof (wrap_in_range (Z.quot F 1000000 * corr)) as Hw.
  set (m := Int32.wrap (Z.quot F 1000000 * corr)) in *.
  unfold Int32.in_range, Int32.min_signed, Int32.max_signed in Hw.
  rewrite (quot_some m 100) by solve_quot.
  reflexivity.
Qed.

Lemma apply_correction_exact corr F :
  0 <= F <= 160000000 ->
  - 13421772 <= corr <= 13421772 ->
  Int32.wrap (F - Z.quot (Int32.wrap (Z.quot F 1000000 * corr)) 100) =
  corrected_target corr F.
Proof.
  intros HF Hc. unfold corrected_target.
  assert (Hq : 0 <= Z.quot F 1000000 <= 160) by (Z.quot_rem_to_equations; lia).
  assert (Hm : - 2147483520 <= Z.quot F 1000000 * corr <= 2147483520) by nia.
  rewrite (wrap_small (Z.quot F 1000000 * corr)) by (apply in_range_bounds; lia).
  apply wrap_small, in_range_bounds.
  Z.quot_rem_to_equations; lia.
Qed.

(** ** The fixed 900 MHz regime *)

(** C6: when the corrected target [Fclk] of [si5351_Calc] (correction 0)
    is at least 1,000,000 and below 81,000,000, the PLL gets mult = 36,
    num = 0, denom = 1 and the output gets divider = 900,000,000 / Fclk,
    fracNum = (900,000,000 mod Fclk) / t and fracDenom = Fclk / t with
    t = (Fclk >> 20) + 1, all integer divisions.  A target of 10,000,000
    gives PLL (36, 0, 1) and output (90, 0, 1,000,000) with R divider
    exponent 0, which stand for exactly 10,000,000 Hz. *)
Theorem Calc_fixed_pll_regime F pll out Fclk :
  apply_correction 0 (fst (Calc_prescale F out)) = Some Fclk ->
  1000000 <= Fclk < 81000000 ->
  let t := Z.shiftr Fclk 20 + 1 in
  si5351_Calc 0 F pll out =
  Some (PLLConfig.mk 36 0 1 (PLLConfig.allowIntegerMode pll),
        OutputConfig.mk 1
          (Z.quot 900000000 Fclk)
          (Z.quot (Z.rem 900000000 Fclk) t)
          (Z.quot Fclk t)
          (if Calc_clamp F <? 1000000 then SI5351_R_DIV_64 else SI5351_R_DIV_1)
          (OutputConfig.inverted out))
  /\ si5351_Calc 0 10000000 pll out =
     Some (PLLConfig.mk 36 0 1 (PLLConfig.allowIntegerMode pll),
           OutputConfig.mk 1 90 0 1000000 0 (OutputConfig.inverted out))
  /\ (found_frequency
        (PLLConfig.mk 36 0 1 (PLLConfig.allowIntegerMode pll))
        (OutputConfig.mk 1 90 0 1000000 0 (OutputConfig.inverted out))
      == 10000000 # 1)%Q.
Proof.
  intros Hc HF t. split; [| split; reflexivity].
  unfold si5351_Calc. destruct (Calc_prescale F out) as [F1 out1] eqn:Hp.
  cbn [fst] in Hc. rewrite Hc. cbn [obind].
  rewrite Calc_solve_low by lia.
  rewrite Calc_prescale_eq in Hp. injection Hp as _ <-. reflexivity.
Qed.

Lemma Calc_fixed_pll_regime_witness :
  (apply_correction 0
     (fst (Calc_prescale 28000000 (OutputConfig.mk 0 0 0 0 0 0)))
   = Some 28000000
   /\ 1000000 <= 28000000 < 81000000)
  /\ si5351_Calc 0 28000000 (PLLConfig.mk 0 0 0 0)
       (OutputConfig.mk 0 0 0 0 0 0) =
     Some (PLLConfig.mk 36 0 1 0, OutputConfig.mk 1 32 148148 1037037 0 0).
Proof.
  assert (Hc : apply_correction 0
                 (fst (Calc_prescale 28000000 (OutputConfig.mk 0 0 0 0 0 0)))
               = Some 28000000) by reflexivity.
  assert (HF : 1000000 <= 28000000 < 81000000) by lia.
  split; [split; assumption |].
  exact (proj1 (Calc_fixed_pll_regime 28000000 (PLLConfig.mk 0 0 0 0)
                  (OutputConfig.mk 0 0 0 0 0 0) 28000000 Hc HF)).
Defined.

(** ** The quadrature planner *)

(** C7: for every target and every correction, [si5351_CalcIQ] stores
    integer mode off, R divider exponent 0 ([SI5351_R_DIV_1]), output
    fraction 0/1, and the divider it selects from the clamped, corrected
    [Fclk]: 127 below 4,900,000; 625,000,000 / Fclk from there to below
    8,000,000; 900,000,000 / Fclk otherwise. *)
Theorem CalcIQ_output_settings corr F pll out :
  exists Fclk pll',
    apply_correction corr (CalcIQ_clamp F) = Some Fclk
    /\ si5351_CalcIQ corr F pll out =
       Some (pll',
             OutputConfig.mk 0
               (if Fclk <? 4900000 then 127
                else if Fclk <? 8000000 then Z.quot 625000000 Fclk
                else Z.quot 900000000 Fclk)
               0 1 SI5351_R_DIV_1 (OutputConfig.inverted out))
    /\ SI5351_R_DIV_1 = 0.
Proof.
  pose proof (CalcIQ_clamp_bounds F) as HB.
  unfold si5351_CalcIQ.
  rewrite apply_correction_eq by (apply in_range_bounds; lia).
  cbn [obind]. rewrite CalcIQ_solve_total.
  eexists. eexists. repeat split.
Qed.

(** ** The correction *)

(** C8: in both planners, for every target and every correction, the
    target the regime selection works on is
    Fclk - (Fclk / 1,000,000) * correction / 100 with truncating division
    at each step, in 32-bit arithmetic; in [si5351_Calc] the formula is
    applied to the target already scaled by 64 below 1 MHz, after the
    R divider has been chosen from the unscaled one.  For a correction of
    at most 13,421,772 in magnitude nothing leaves the 32 bits and the
    value is the exact one.  A correction of 970 takes 10,000,097 to
    10,000,000. *)
Theorem correction_applied corr F pll out :
  let machine Fclk :=
    Int32.wrap (Fclk - Z.quot (Int32.wrap (Z.quot Fclk 1000000 * corr)) 100) in
  let F1 :=
    if Calc_clamp F <? 1000000 then 64 * Calc_clamp F else Calc_clamp F in
  let out1 :=
    OutputConfig.mk 1 (OutputConfig.div out) (OutputConfig.num out)
      (OutputConfig.denom out)
      (if Calc_clamp F <? 1000000 then SI5351_R_DIV_64 else SI5351_R_DIV_1)
      (OutputConfig.inverted out) in
  si5351_Calc corr F pll out = Calc_solve (machine F1) pll out1
  /\ si5351_CalcIQ corr F pll out =
     CalcIQ_solve (machine (CalcIQ_clamp F)) pll out
  /\ (- 13421772 <= corr <= 13421772 ->
      machine F1 = corrected_target corr F1
      /\ machine (CalcIQ_clamp F) = corrected_target corr (CalcIQ_clamp F))
  /\ corrected_target 970 10000097 = 10000000.
Proof.
  intros machine F1 out1.
  pose proof (Calc_clamp_bounds F) as HB.
  pose proof (CalcIQ_clamp_bounds F) as HI.
  assert (H1 : 0 <= F1 <= 160000000).
  { subst F1. destruct (Z.ltb_spec (Calc_clamp F) 1000000); lia. }
  repeat split.
  - unfold si5351_Calc. rewrite Calc_prescale_eq. fold F1 out1.
    rewrite apply_correction_eq by (apply in_range_bounds; lia).
    reflexivity.
  - unfold si5351_CalcIQ.
    rewrite apply_correction_eq by (apply in_range_bounds; lia).
    reflexivity.
  - apply apply_correction_exact; lia.
  - apply apply_correction_exact; lia.
Qed.

Lemma correction_applied_witness :
  - 13421772 <= 970 <= 13421772
  /\ Int32.wrap
       (10000097 - Z.quot (Int32.wrap (Z.quot 10000097 1000000 * 970)) 100)
     = corrected_target 970 10000097.
Proof.
  assert (Hc : - 13421772 <= 970 <= 13421772) by lia.
  split; [exact Hc |].
  destruct (correction_applied 970 10000097 (PLLConfig.mk 0 0 0 0)
              (OutputConfig.mk 0 0 0 0 0 0)) as (_ & _ & Hexact & _).
  exact (proj1 (Hexact Hc)).
Defined.

(** ** The accuracy of the standard planner *)

Lemma inject_Z_nonzero k : k <> 0 -> ~ (inject_Z k == 0)%Q.
Proof.
  intros Hk H. apply Hk. unfold Qeq in H. cbn in H. lia.
Qed.

(** The error of a pair of settings against a target [T], as one
    fraction of integers. *)
Lemma error_as_fraction a b c x y z e T ai oi oj :
  0 < c -> 0 < z -> 0 < x * z + y -> 0 <= e ->
  (found_frequency (PLLConfig.mk a b c ai) (OutputConfig.mk oi x y z e oj)
   - inject_Z T
   == inject_Z (25000000 * (a * c + b) * z - T * (x * z + y) * c * 2 ^ e)
      / inject_Z (c * (x * z + y) * 2 ^ e))%Q.
Proof.
  intros Hc Hz Hd He.
  unfold found_frequency, pll_frequency.
  cbn [PLLConfig.mult PLLConfig.num PLLConfig.denom OutputConfig.div
       OutputConfig.num OutputConfig.denom OutputConfig.rdiv].
  assert (Hp : 0 < 2 ^ e) by (apply Z.pow_pos_nonneg; lia).
  generalize dependent (2 ^ e). intros E Hp.
  pose proof (inject_Z_nonzero E ltac:(lia)) as HE.
  pose proof (inject_Z_nonzero c ltac:(lia)) as HC.
  pose proof (inject_Z_nonzero z ltac:(lia)) as HZ.
  pose proof (inject_Z_nonzero (x * z + y) ltac:(lia)) as HD.
  unfold Z.sub.
  repeat (rewrite inject_Z_plus || rewrite inject_Z_mult
          || rewrite inject_Z_opp).
  rewrite inject_Z_plus, inject_Z_mult in HD.
  change (inject_Z 25000000) with (25000000 # 1)%Q.
  field. repeat split; assumption.
Qed.

Lemma abs_fraction_le N D B :
  0 < D -> - (B * D) <= N <= B * D ->
  (Qabs (inject_Z N / inject_Z D) <= inject_Z B)%Q.
Proof.
  intros HD HN.
  assert (HQ : (inject_Z 0 < inject_Z D)%Q) by (rewrite <- Zlt_Qlt; exact HD).
  apply Qabs_Qle_condition. split.
  - apply Qle_shift_div_l; [exact HQ |].
    rewrite <- inject_Z_opp, <- inject_Z_mult, <- Zle_Qle. lia.
  - apply Qle_shift_div_r; [exact HQ |].
    rewrite <- inject_Z_mult, <- Zle_Qle. lia.
Qed.

(** The integer core of the 900 MHz branch: with [s = F >> 20] and
    [x = 900000000 / F], the error numerator is at most [s] times the
    denominator part [z], whatever the remainders are. *)
Lemma low_branch_numerator F :
  0 < F ->
  let s := Z.shiftr F 20 in
  let x := Z.quot 900000000 F in
  let y := Z.quot (Z.rem 900000000 F) (s + 1) in
  let z := Z.quot F (s + 1) in
  0 <= y <= z /\ 0 < z
  /\ - (s * z) <= 900000000 * z - F * (x * z + y) <= s * z.
Proof.
  intros HF s x y z.
  destruct (shiftr20_bounds F ltac:(lia)) as [Hs0 Hs]. fold s in Hs0, Hs.
  assert (Hx : 900000000 = F * x + Z.rem 900000000 F)
    by (apply Z.quot_rem'; lia).
  assert (Hr : 0 <= Z.rem 900000000 F < F) by (apply Z.rem_bound_pos; lia).
  set (r := Z.rem 900000000 F) in *.
  assert (Hy : r = (s + 1) * y + Z.rem r (s + 1)) by apply Z.quot_rem'.
  assert (Hy' : 0 <= Z.rem r (s + 1) < s + 1) by (apply Z.rem_bound_pos; lia).
  assert (Hz : F = (s + 1) * z + Z.rem F (s + 1)) by apply Z.quot_rem'.
  assert (Hz' : 0 <= Z.rem F (s + 1) < s + 1) by (apply Z.rem_bound_pos; lia).
  set (r' := Z.rem r (s + 1)) in *. set (f' := Z.rem F (s + 1)) in *.
  assert (Hy0 : 0 <= y) by (apply Z.quot_pos; lia).
  assert (Hz0 : 0 < z) by (apply Z.quot_str_pos; lia).
  assert (Hyz : y <= z) by (apply Z.quot_le_mono; lia).
  assert (E : 900000000 * z - F * (x * z + y) = r' * z - f' * y) by nia.
  rewrite E. repeat split; try lia; nia.
Qed.

Lemma Calc_clamp_id F : 8000 <= F <= 160000000 -> Calc_clamp F = F.
Proof.
  intros H. unfold Calc_clamp.
  destruct (Z.ltb_spec F 8000); [lia |].
  destruct (Z.gtb_spec F 160000000); lia.
Qed.

(** The error of the 900 MHz branch for a corrected target [F] that
    stands for the target [T] scaled by [2 ^ e]. *)
Lemma low_branch_error F T e B ai oi oj :
  0 < F < 81000000 ->
  0 <= e ->
  F = T * 2 ^ e ->
  Z.shiftr F 20 <= B * Z.quot 900000000 F ->
  0 <= B ->
  (Qabs
     (found_frequency (PLLConfig.mk 36 0 1 ai)
        (OutputConfig.mk oi (Z.quot 900000000 F)
           (Z.quot (Z.rem 900000000 F) (Z.shiftr F 20 + 1))
           (Z.quot F (Z.shiftr F 20 + 1)) e oj)
      - inject_Z T) <= inject_Z B)%Q.
Proof.
  intros HF He HT HB HB0.
  destruct (low_branch_numerator F ltac:(lia)) as ((Hy0 & Hyz) & Hz & HN).
  cbv zeta in Hy0, Hyz, Hz, HN.
  assert (Hx : 11 <= Z.quot 900000000 F)
    by (apply Z.quot_le_lower_bound; lia).
  set (s := Z.shiftr F 20) in *. set (x := Z.quot 900000000 F) in *.
  set (y := Z.quot (Z.rem 900000000 F) (s + 1)) in *.
  set (z := Z.quot F (s + 1)) in *.
  assert (Hp : 1 <= 2 ^ e) by (pose proof (Z.pow_pos_nonneg 2 e); lia).
  rewrite error_as_fraction by nia.
  apply abs_fraction_le; [nia |].
  replace (25000000 * (36 * 1 + 0) * z - T * (x * z + y) * 1 * 2 ^ e)
    with (900000000 * z - F * (x * z + y)) by (rewrite HT; ring).
  assert (Hsz : s * z <= B * (x * z + y)) by nia.
  assert (Hd : B * (x * z + y) <= B * (1 * (x * z + y) * 2 ^ e)) by nia.
  lia.
Qed.

(** The error of the branch at and above 81 MHz, for the two dividers
    the range of the claim reaches. *)
Lemma high_branch_error F x ai oi oj :
  0 <= F ->
  x = 6 \/ x = 8 ->
  (Qabs
     (found_frequency
        (PLLConfig.mk (Z.quot (x * F) 25000000)
           (Z.quot (Z.rem (x * F) 25000000) 24) 1041666 ai)
        (OutputConfig.mk oi x 0 1 0 oj)
      - inject_Z F) <= inject_Z 4)%Q.
Proof.
  intros HF Hx.
  rewrite error_as_fraction by lia.
  apply abs_fraction_le; [lia |].
  change (2 ^ 0) with 1.
  destruct Hx as [-> | ->]; Z.quot_rem_to_equations; lia.
Qed.

(** Outside the band from 75 MHz to 81 MHz the planner keeps the error
    within 6 Hz, and within 7 Hz inside it. *)
Lemma Calc_error_bound T pll out :
  500000 <= T <= 112500000 ->
  exists p o,
    si5351_Calc 0 T pll out = Some (p, o)
    /\ (Qabs (found_frequency p o - inject_Z T) <= 7 # 1)%Q
    /\ (T <= 75000000 \/ 81000000 <= T ->
        (Qabs (found_frequency p o - inject_Z T) <= 6 # 1)%Q).
Proof.
  intros HT. rewrite si5351_Calc_0, Calc_clamp_id by lia.
  destruct (Z.ltb_spec T 1000000) as [Hs | Hs].
  - rewrite Calc_solve_low by lia.
    eexists. eexists. split; [reflexivity |].
    destruct (shiftr20_bounds (64 * T) ltac:(lia)) as [Hs0 Hs1].
    assert (Hx : 14 <= Z.quot 900000000 (64 * T))
      by (apply Z.quot_le_lower_bound; lia).
    split; [| intros _].
    + apply (low_branch_error (64 * T) T 6 7); try lia.
    + apply (low_branch_error (64 * T) T 6 6); try lia.
  - destruct (Z.lt_ge_cases T 81000000) as [Hlo | Hhi].
    + rewrite Calc_solve_low by lia.
      eexists. eexists. split; [reflexivity |].
      destruct (shiftr20_bounds T ltac:(lia)) as [Hs0 Hs1].
      assert (Hx : 11 <= Z.quot 900000000 T)
        by (apply Z.quot_le_lower_bound; lia).
      split; [| intros Hband].
      * apply (low_branch_error T T 0 7); try lia.
      * assert (Hx' : 12 <= Z.quot 900000000 T)
          by (apply Z.quot_le_lower_bound; lia).
        apply (low_branch_error T T 0 6); try lia.
    + destruct (Calc_solve_high T pll
                  (OutputConfig.mk 1 (OutputConfig.div out)
                     (OutputConfig.num out) (OutputConfig.denom out)
                     SI5351_R_DIV_1
                     (OutputConfig.inverted out)) ltac:(lia)) as [-> _].
      destruct (Z.geb_spec T 150000000); [lia |].
      eexists. eexists. split; [reflexivity |].
      cbn [OutputConfig.allowIntegerMode OutputConfig.rdiv
           OutputConfig.inverted].
      assert (H4 : (Qabs
                      (found_frequency
                         (PLLConfig.mk
                            (Z.quot ((if T >=? 100000000 then 6 else 8) * T)
                               25000000)
                            (Z.quot
                               (Z.rem ((if T >=? 100000000 then 6 else 8) * T)
                                  25000000) 24)
                            1041666 (PLLConfig.allowIntegerMode pll))
                         (OutputConfig.mk 1
                            (if T >=? 100000000 then 6 else 8) 0 1
                            SI5351_R_DIV_1 (OutputConfig.inverted out))
                       - inject_Z T) <= inject_Z 4)%Q).
      { apply high_branch_error; [lia |].
        destruct (T >=? 100000000); [now left | now right]. }
      split; [| intros _]; (eapply Qle_trans; [exact H4 |]);
        apply Qle_bool_iff; reflexivity.
Qed.

(** C1, at the target 80,999,962 Hz, which lies in [500,000, 112,500,000]:
    [si5351_Calc] (correction 0) takes the 900 MHz branch and returns
    PLL (36, 0, 1) and output (11, 115389, 1038461) with R divider
    exponent 0; the frequency these stand for is more than 6 Hz above the
    target (by 6.79... Hz). *)
Theorem Calc_error_exceeds_6Hz pll out :
  500000 <= 80999962 <= 112500000
  /\ si5351_Calc 0 80999962 pll out =
     Some (PLLConfig.mk 36 0 1 (PLLConfig.allowIntegerMode pll),
           OutputConfig.mk 1 11 115389 1038461 0 (OutputConfig.inverted out))
  /\ (6 # 1 <
      found_frequency
        (PLLConfig.mk 36 0 1 (PLLConfig.allowIntegerMode pll))
        (OutputConfig.mk 1 11 115389 1038461 0 (OutputConfig.inverted out))
      - (80999962 # 1))%Q
  /\ (found_frequency
        (PLLConfig.mk 36 0 1 (PLLConfig.allowIntegerMode pll))
        (OutputConfig.mk 1 11 115389 1038461 0 (OutputConfig.inverted out))
      - (80999962 # 1)
      == 3923074 # 576923)%Q.
Proof.
  split; [lia |]. split; [reflexivity |]. split; reflexivity.
Qed.

(** ** The fractions the planner returns *)

(** C9, at the targets 81,249,998 Hz and 2,200,489 Hz: [si5351_Calc]
    (correction 0) returns a PLL fraction 1041666/1041666 for the first
    and an output fraction 733496/733496 for the second, so the
    numerator is not below the denominator although the denominator is
    above 1. *)
Theorem Calc_fraction_not_below_one pll out :
  si5351_Calc 0 81249998 pll out =
  Some (PLLConfig.mk 25 1041666 1041666 (PLLConfig.allowIntegerMode pll),
        OutputConfig.mk 1 8 0 1 0 (OutputConfig.inverted out))
  /\ si5351_Calc 0 2200489 pll out =
     Some (PLLConfig.mk 36 0 1 (PLLConfig.allowIntegerMode pll),
           OutputConfig.mk 1 408 733496 733496 0 (OutputConfig.inverted out))
  /\ (exists p o,
         si5351_Calc 0 81249998 pll out = Some (p, o)
         /\ PLLConfig.denom p > 1
         /\ PLLConfig.num p >= PLLConfig.denom p)
  /\ (exists p o,
         si5351_Calc 0 2200489 pll out = Some (p, o)
         /\ OutputConfig.denom o > 1
         /\ OutputConfig.num o >= OutputConfig.denom o).
Proof.
  split; [reflexivity |]. split; [reflexivity |].
  split; eexists; eexists; (split; [reflexivity |]); cbn; lia.
Qed.

(** ** The multiplier range *)

(** Turns an order between rationals built from integers, some of them
    numerals, into an order between integers. *)
Ltac q_to_z :=
  unfold pll_frequency, Qdiv;
  unfold Qle, Qlt, Qmult, Qplus, Qinv, inject_Z;
  cbn [Qnum Qden PLLConfig.mult PLLConfig.num PLLConfig.denom];
  rewrite ?Pos2Z.inj_mul.

Lemma si5351_CalcIQ_0 F pll out :
  let G := CalcIQ_clamp F in
  let div :=
    if G <? 4900000 then 127
    else if G <? 8000000 then Z.quot 625000000 G
    else Z.quot 900000000 G in
  si5351_CalcIQ 0 F pll out =
  Some (PLLConfig.mk (Z.quot (G * div) 25000000)
          (Z.quot (Z.rem (G * div) 25000000) 24) 1041666
          (PLLConfig.allowIntegerMode pll),
        OutputConfig.mk 0 div 0 1 SI5351_R_DIV_1 (OutputConfig.inverted out))
  /\ 177800000 <= G * div <= 900000000
  /\ (4724410 <= G -> 600000000 <= G * div)
  /\ (G < 4724410 -> G * div < 600000000).
Proof.
  intros G div.
  pose proof (CalcIQ_clamp_bounds F) as HB. fold G in HB.
  assert (Hp : 177800000 <= G * div <= 900000000
               /\ (4724410 <= G -> 600000000 <= G * div)
               /\ (G < 4724410 -> G * div < 600000000)).
  { subst div. destruct (Z.ltb_spec G 4900000); [lia |].
    destruct (Z.ltb_spec G 8000000); Z.quot_rem_to_equations; nia. }
  split; [| exact Hp].
  unfold si5351_CalcIQ. fold G.
  rewrite apply_correction_0 by (apply in_range_bounds; lia).
  cbn [obind]. rewrite CalcIQ_solve_total. fold div.
  unfold Int32.mul.
  rewrite (wrap_small (G * div)) by (apply in_range_bounds; lia).
  rewrite !wrap_small by solve_quot.
  reflexivity.
Qed.

(** C4, the claim as stated fails: for the target 1,400,000 Hz the
    quadrature planner returns the multiplier 7. *)
Lemma CalcIQ_multiplier_below_24 :
  ~ (forall F pll out p o,
       si5351_CalcIQ 0 F pll out = Some (p, o) ->
       24 <= PLLConfig.mult p <= 36).
Proof.
  intros H.
  specialize (H 1400000 (PLLConfig.mk 0 0 0 0) (OutputConfig.mk 0 0 0 0 0 0)
                _ _ eq_refl).
  cbn in H. lia.
Qed.

(** C4, amended: with correction 0, [si5351_Calc] returns for every
    target a multiplier in [24, 36] and a PLL frequency in
    [600 MHz, 900 MHz]; [si5351_CalcIQ] does so whenever the clamped
    target is at least 4,724,410 Hz, and below that (the range served by
    the fixed divider 127) it returns a multiplier in [7, 23]. *)
Theorem planner_multiplier_range F pll out :
  (exists p o,
      si5351_Calc 0 F pll out = Some (p, o)
      /\ 24 <= PLLConfig.mult p <= 36
      /\ (600000000 # 1 <= pll_frequency p <= 900000000 # 1)%Q)
  /\ (exists p o,
         si5351_CalcIQ 0 F pll out = Some (p, o)
         /\ (4724410 <= CalcIQ_clamp F ->
             24 <= PLLConfig.mult p <= 36
             /\ (600000000 # 1 <= pll_frequency p <= 900000000 # 1)%Q)
         /\ (CalcIQ_clamp F < 4724410 -> 7 <= PLLConfig.mult p <= 23)).
Proof.
  split.
  - rewrite si5351_Calc_0.
    pose proof (Calc_clamp_bounds F) as HB.
    set (F1 := if Calc_clamp F <? 1000000 then 64 * Calc_clamp F
               else Calc_clamp F).
    assert (H1 : 512000 <= F1 <= 160000000).
    { subst F1. destruct (Z.ltb_spec (Calc_clamp F) 1000000); lia. }
    destruct (Z.lt_ge_cases F1 81000000) as [Hlo | Hhi].
    + rewrite Calc_solve_low by lia.
      eexists. eexists. split; [reflexivity |]. cbn [PLLConfig.mult].
      split; [lia |]. split; apply Qle_bool_iff; reflexivity.
    + destruct (Calc_solve_high F1 pll
                  (OutputConfig.mk 1 (OutputConfig.div out)
                     (OutputConfig.num out) (OutputConfig.denom out)
                     (if Calc_clamp F <? 1000000 then SI5351_R_DIV_64
                      else SI5351_R_DIV_1)
                     (OutputConfig.inverted out)) ltac:(lia)) as [-> Hx].
      set (n := _ * F1) in *.
      eexists. eexists. split; [reflexivity |]. cbn [PLLConfig.mult].
      split; [Z.quot_rem_to_equations; lia |].
      split; q_to_z; Z.quot_rem_to_equations; lia.
  - destruct (si5351_CalcIQ_0 F pll out) as (-> & Hb & Hhi & Hlo).
    set (n := CalcIQ_clamp F * _) in *.
    eexists. eexists. split; [reflexivity |]. cbn [PLLConfig.mult].
    split.
    + intros HG. specialize (Hhi HG).
      split; [Z.quot_rem_to_equations; lia |].
      split; q_to_z; Z.quot_rem_to_equations; lia.
    + intros HG. specialize (Hlo HG). Z.quot_rem_to_equations; lia.
Qed.

Lemma planner_multiplier_range_witness :
  4724410 <= CalcIQ_clamp 7000000
  /\ exists p o,
      si5351_CalcIQ 0 7000000 (PLLConfig.mk 0 0 0 0)
        (OutputConfig.mk 0 0 0 0 0 0) = Some (p, o)
      /\ 24 <= PLLConfig.mult p <= 36.
Proof.
  assert (HG : 4724410 <= CalcIQ_clamp 7000000) by (cbn; lia).
  split; [exact HG |].
  destruct (planner_multiplier_range 7000000 (PLLConfig.mk 0 0 0 0)
              (OutputConfig.mk 0 0 0 0 0 0))
    as (_ & p & o & Heq & Hhi & _).
  exists p, o. split; [exact Heq |]. exact (proj1 (Hhi HG)).
Defined.

(** What does hold of the fractions: for every target, both planners
    return denominators in [1, 2^20] and numerators in [0, 2^20 - 1]
    that do not exceed their denominators. *)
Lemma planner_fraction_bounds F pll out :
  let fits (n d : Z) := 1 <= d <= 2 ^ 20 /\ 0 <= n <= 2 ^ 20 - 1 /\ n <= d in
  (exists p o,
      si5351_Calc 0 F pll out = Some (p, o)
      /\ fits (PLLConfig.num p) (PLLConfig.denom p)
      /\ fits (OutputConfig.num o) (OutputConfig.denom o))
  /\ (exists p o,
         si5351_CalcIQ 0 F pll out = Some (p, o)
         /\ fits (PLLConfig.num p) (PLLConfig.denom p)
         /\ fits (OutputConfig.num o) (OutputConfig.denom o)).
Proof.
  intros fits. subst fits. cbv beta. change (2 ^ 20) with 1048576. split.
  - rewrite si5351_Calc_0.
    pose proof (Calc_clamp_bounds F) as HB.
    set (F1 := if Calc_clamp F <? 1000000 then 64 * Calc_clamp F
               else Calc_clamp F).
    assert (H1 : 512000 <= F1 <= 160000000).
    { subst F1. destruct (Z.ltb_spec (Calc_clamp F) 1000000); lia. }
    destruct (Z.lt_ge_cases F1 81000000) as [Hlo | Hhi].
    + rewrite Calc_solve_low by lia.
      eexists. eexists. split; [reflexivity |].
      cbn [PLLConfig.num PLLConfig.denom OutputConfig.num OutputConfig.denom].
      destruct (low_branch_numerator F1 ltac:(lia)) as ((Hy0 & Hyz) & Hz & _).
      cbv zeta in Hy0, Hyz, Hz.
      destruct (shiftr20_bounds F1 ltac:(lia)) as [Hs0 Hs].
      assert (Hzu : Z.quot F1 (Z.shiftr F1 20 + 1) < 1048576)
        by (apply Z.quot_lt_upper_bound; lia).
      lia.
    + destruct (Calc_solve_high F1 pll
                  (OutputConfig.mk 1 (OutputConfig.div out)
                     (OutputConfig.num out) (OutputConfig.denom out)
                     (if Calc_clamp F <? 1000000 then SI5351_R_DIV_64
                      else SI5351_R_DIV_1)
                     (OutputConfig.inverted out)) ltac:(lia)) as [-> Hx].
      set (n := _ * F1) in *.
      eexists. eexists. split; [reflexivity |].
      cbn [PLLConfig.num PLLConfig.denom OutputConfig.num OutputConfig.denom].
      split; [Z.quot_rem_to_equations |]; lia.
  - destruct (si5351_CalcIQ_0 F pll out) as (-> & Hb & _).
    set (n := CalcIQ_clamp F * _) in *.
    eexists. eexists. split; [reflexivity |].
    cbn [PLLConfig.num PLLConfig.denom OutputConfig.num OutputConfig.denom].
    split; [Z.quot_rem_to_equations |]; lia.
Qed.

(** ** The bytes of a parameter block *)

Lemma uint8_land x : uint8 x = Z.land x (Z.ones 8).
Proof. unfold uint8. now rewrite Z.land_ones by lia. Qed.

Lemma uint8_small x : 0 <= x < 256 -> uint8 x = x.
Proof. intros H. unfold uint8. now apply Z.mod_small. Qed.

Lemma bits_land hi lo x :
  0 <= lo <= hi ->
  bits hi lo x = Z.land (Z.shiftr x lo) (Z.ones (hi - lo + 1)).
Proof.
  intros H. unfold bits. rewrite Z.land_ones by lia.
  now rewrite Z.shiftr_div_pow2 by lia.
Qed.

Lemma small_land n x : 0 <= n -> 0 <= x < 2 ^ n -> x = Z.land x (Z.ones n).
Proof.
  intros Hn Hx. rewrite Z.land_ones by lia. now rewrite Z.mod_small.
Qed.

Lemma byte_of_field x lo :
  0 <= lo ->
  uint8 (Z.land (Z.shiftr x lo) 0xFF) = bits (lo + 7) lo x.
Proof.
  intros Hlo. rewrite uint8_land, bits_land by lia.
  replace (lo + 7 - lo + 1) with 8 by lia.
  change 0xFF with (Z.ones 8).
  Z.bitblast.
Qed.

Lemma byte_of_low_field x : uint8 (Z.land x 0xFF) = bits 7 0 x.
Proof.
  pose proof (byte_of_field x 0 ltac:(lia)) as H.
  rewrite Z.shiftr_0_r in H. exact H.
Qed.

Lemma byte_of_flags P1 divBy4 rdiv :
  0 <= divBy4 < 4 ->
  0 <= rdiv < 8 ->
  uint8 (Z.lor (Z.lor (Z.land (Z.shiftr P1 16) 0x3)
                      (Z.shiftl (Z.land divBy4 0x3) 2))
               (Z.shiftl (Z.land rdiv 0x7) 4))
  = Z.lor (Z.lor (bits 17 16 P1) (Z.shiftl divBy4 2)) (Z.shiftl rdiv 4).
Proof.
  intros Hd Hr.
  change 0x3 with (Z.ones 2). change 0x7 with (Z.ones 3).
  rewrite uint8_land, bits_land by lia.
  change (17 - 16 + 1) with 2.
  rewrite (small_land 2 divBy4) at 2 by lia.
  rewrite (small_land 3 rdiv) at 2 by lia.
  Z.bitblast.
Qed.

Lemma byte_of_high_nibbles P2 P3 :
  uint8 (Z.lor (Z.land (Z.shiftr P3 12) 0xF0) (Z.land (Z.shiftr P2 16) 0xF))
  = Z.lor (Z.shiftl (bits 19 16 P3) 4) (bits 19 16 P2).
Proof.
  rewrite uint8_land, !bits_land by lia.
  change 0xF0 with (Z.shiftl (Z.ones 4) 4). change 0xF with (Z.ones 4).
  change (19 - 16 + 1) with 4.
  Z.bitblast.
Qed.

(** ** Register traffic *)

Section Traffic.

Variable Wire_endTransmission : bus -> Z.

(** The traffic of [si5351_writeBulk], with the data as the code computes
    it, for any arguments. *)
Lemma si5351_writeBulk_run baseaddr P1 P2 P3 divBy4 rdiv w :
  si5351_writeBulk Wire_endTransmission baseaddr P1 P2 P3 divBy4 rdiv w =
  Some (tt,
        w ++ combine (block_addresses baseaddr)
               (map uint8
                  [ Z.land (Z.shiftr P3 8) 0xFF;
                    Z.land P3 0xFF;
                    Z.lor (Z.lor (Z.land (Z.shiftr P1 16) 0x3)
                                 (Z.shiftl (Z.land divBy4 0x3) 2))
                          (Z.shiftl (Z.land rdiv 0x7) 4);
                    Z.land (Z.shiftr P1 8) 0xFF;
                    Z.land P1 0xFF;
                    Z.lor (Z.land (Z.shiftr P3 12) 0xF0)
                          (Z.land (Z.shiftr P2 16) 0xF);
                    Z.land (Z.shiftr P2 8) 0xFF;
                    Z.land P2 0xFF ])).
Proof.
  unfold si5351_writeBulk, i2c_bind, i2c_ret, si5351_write, block_addresses.
  cbn [map combine]. rewrite <- !app_assoc. cbn [app].
  now rewrite Z.add_0_r.
Qed.

(** The same traffic in the words of section 4.3. *)
Lemma si5351_writeBulk_layout baseaddr P1 P2 P3 divBy4 rdiv w :
  0 <= divBy4 < 4 ->
  0 <= rdiv < 8 ->
  si5351_writeBulk Wire_endTransmission baseaddr P1 P2 P3 divBy4 rdiv w =
  Some (tt,
        w ++ combine (block_addresses baseaddr)
               (block_layout P1 P2 P3 divBy4 rdiv)).
Proof.
  intros Hd Hr. rewrite si5351_writeBulk_run. unfold block_layout.
  cbn [map].
  rewrite (byte_of_field P3 8), (byte_of_field P1 8), (byte_of_field P2 8),
    (byte_of_low_field P3), (byte_of_low_field P1), (byte_of_low_field P2),
    byte_of_flags, byte_of_high_nibbles by lia.
  reflexivity.
Qed.

Lemma block_addresses_no_wrap baseaddr :
  0 <= baseaddr <= 248 ->
  block_addresses baseaddr =
  [ baseaddr; baseaddr + 1; baseaddr + 2; baseaddr + 3; baseaddr + 4;
    baseaddr + 5; baseaddr + 6; baseaddr + 7 ].
Proof.
  intros H. unfold block_addresses. cbn [map].
  rewrite !uint8_small by lia. now rewrite Z.add_0_r.
Qed.

(** C2: for divBy4 in 2 bits and rdiv in 3 bits (and any P1, P2, P3, so
    also 18-bit P1 and 20-bit P2 and P3), [si5351_writeBulk] issues exactly
    eight register writes, to the consecutive register addresses from
    baseaddr (baseaddr .. baseaddr+7 for a base up to 248, modulo 256
    beyond), carrying in this order: P3 bits 15:8; P3 bits 7:0;
    (P1 bits 17:16) | (divBy4 << 2) | (rdiv << 4); P1 bits 15:8;
    P1 bits 7:0; (P3 bits 19:16 << 4) | (P2 bits 19:16); P2 bits 15:8;
    P2 bits 7:0. *)
Theorem writeBulk_block_layout baseaddr P1 P2 P3 divBy4 rdiv w :
  0 <= divBy4 < 4 ->
  0 <= rdiv < 8 ->
  si5351_writeBulk Wire_endTransmission baseaddr P1 P2 P3 divBy4 rdiv w =
  Some (tt,
        w ++ combine (block_addresses baseaddr)
               [ bits 15 8 P3;
                 bits 7 0 P3;
                 Z.lor (Z.lor (bits 17 16 P1) (Z.shiftl divBy4 2))
                       (Z.shiftl rdiv 4);
                 bits 15 8 P1;
                 bits 7 0 P1;
                 Z.lor (Z.shiftl (bits 19 16 P3) 4) (bits 19 16 P2);
                 bits 15 8 P2;
                 bits 7 0 P2 ])
  /\ (0 <= baseaddr <= 248 ->
      block_addresses baseaddr =
      [ baseaddr; baseaddr + 1; baseaddr + 2; baseaddr + 3; baseaddr + 4;
        baseaddr + 5; baseaddr + 6; baseaddr + 7 ]).
Proof.
  intros Hd Hr. split.
  - now apply si5351_writeBulk_layout.
  - apply block_addresses_no_wrap.
Qed.

End Traffic.

(** ** Programming a PLL and an output *)

Lemma divider_guard_iff a d n :
  (a =? 0) && ((d <? 8) || ((d =? 8) && (n =? 0))) = true
  <-> a = 0 /\ (d < 8 \/ (d = 8 /\ n = 0)).
Proof.
  rewrite andb_true_iff, orb_true_iff, andb_true_iff.
  rewrite !Z.eqb_eq, Z.ltb_lt. tauto.
Qed.

Lemma land_7_bounds r : 0 <= Z.land r 0x7 < 8.
Proof.
  change 0x7 with (Z.ones 3). rewrite Z.land_ones by lia.
  apply Z.mod_pos_bound. lia.
Qed.

Lemma land_7F_byte p : uint8 (Z.land p 0x7F) = Z.land p 0x7F.
Proof.
  apply uint8_small. change 0x7F with (Z.ones 7).
  rewrite Z.land_ones by lia.
  pose proof (Z.mod_pos_bound p (2 ^ 7) ltac:(lia)). lia.
Qed.

Section Programming.

Variable Wire_endTransmission : bus -> Z.

(** The masks of [si5351_writeBulk] make the flag and the exponent fit. *)
Lemma si5351_writeBulk_masked baseaddr P1 P2 P3 divBy4 rdiv w :
  si5351_writeBulk Wire_endTransmission baseaddr P1 P2 P3 divBy4 rdiv w =
  Some (tt,
        w ++ combine (block_addresses baseaddr)
               (block_layout P1 P2 P3 (Z.land divBy4 0x3) (Z.land rdiv 0x7))).
Proof.
  rewrite <- (si5351_writeBulk_layout Wire_endTransmission).
  - rewrite !si5351_writeBulk_run.
    rewrite <- !Z.land_assoc. reflexivity.
  - change 0x3 with (Z.ones 2). rewrite Z.land_ones by lia.
    apply Z.mod_pos_bound. lia.
  - apply land_7_bounds.
Qed.

Lemma SetupOutput_invalid_channel output pllSource driveStrength conf
    phaseOffset w :
  output > 2 ->
  si5351_SetupOutput Wire_endTransmission output pllSource driveStrength
    conf phaseOffset w = Some (1, w).
Proof.
  intros H. unfold si5351_SetupOutput.
  destruct (Z.gtb_spec output 2); [reflexivity | lia].
Qed.

Lemma SetupOutput_invalid_divider output pllSource driveStrength conf
    phaseOffset w :
  output <= 2 ->
  OutputConfig.allowIntegerMode conf = 0 ->
  OutputConfig.div conf < 8
  \/ (OutputConfig.div conf = 8 /\ OutputConfig.num conf = 0) ->
  si5351_SetupOutput Wire_endTransmission output pllSource driveStrength
    conf phaseOffset w = Some (2, w).
Proof.
  intros Ho Ha Hd. unfold si5351_SetupOutput.
  destruct (Z.gtb_spec output 2); [lia |].
  rewrite (proj2 (divider_guard_iff _ _ _) (conj Ha Hd)). reflexivity.
Qed.

(** Past the two guards with the divider 4: the traffic. *)
Lemma SetupOutput_div4_traffic output pllSource driveStrength conf
    phaseOffset w :
  0 <= output <= 2 ->
  OutputConfig.allowIntegerMode conf <> 0 ->
  OutputConfig.div conf = 4 ->
  exists clkControl,
    si5351_SetupOutput Wire_endTransmission output pllSource driveStrength
      conf phaseOffset w =
    Some (0,
          w ++ (16 + output, clkControl)
               :: combine (block_addresses (42 + 8 * output))
                    (block_layout 0 0 1 3 (Z.land (OutputConfig.rdiv conf) 0x7))
               ++ [(165 + output, Z.land phaseOffset 0x7F)]).
Proof.
  intros Ho Ha Hd. unfold si5351_SetupOutput.
  destruct (Z.gtb_spec output 2); [lia |].
  destruct (Z.eqb_spec (OutputConfig.allowIntegerMode conf) 0);
    [contradiction |].
  rewrite Hd. change (4 =? 4) with true. cbn [andb orb negb].
  unfold i2c_bind at 1. cbn [i2c_ret].
  assert (Hc : output = 0 \/ output = 1 \/ output = 2) by lia.
  eexists.
  destruct Hc as [-> | [-> | ->]];
    unfold i2c_bind, i2c_ret, si5351_write;
    rewrite si5351_writeBulk_masked;
    rewrite land_7F_byte;
    rewrite <- !app_assoc; cbn [app];
    reflexivity.
Qed.

(** Past the two guards the call succeeds, unless its division traps. *)
Lemma SetupOutput_success output pllSource driveStrength conf phaseOffset w :
  output <= 2 ->
  ~ (OutputConfig.allowIntegerMode conf = 0
     /\ (OutputConfig.div conf < 8
         \/ (OutputConfig.div conf = 8 /\ OutputConfig.num conf = 0))) ->
  OutputConfig.div conf = 4
  \/ Int32.traps (Int32.mul 128 (OutputConfig.num conf))
       (OutputConfig.denom conf) = false ->
  exists w',
    si5351_SetupOutput Wire_endTransmission output pllSource driveStrength
      conf phaseOffset w = Some (0, w').
Proof.
  intros Ho Hg Hd. unfold si5351_SetupOutput.
  destruct (Z.gtb_spec output 2); [lia |].
  destruct ((OutputConfig.allowIntegerMode conf =? 0)
            && ((OutputConfig.div conf <? 8)
                || ((OutputConfig.div conf =? 8)
                    && (OutputConfig.num conf =? 0)))) eqn:Eg.
  { apply divider_guard_iff in Eg. contradiction. }
  destruct (Z.eqb_spec (OutputConfig.div conf) 4) as [E4 | N4].
  - unfold i2c_bind at 1. cbn [i2c_ret].
    destruct (match output with
              | 0 => _ | 1 => _ | 2 => _ | _ => _
              end) as [[baseaddr phaseOffsetRegister] clkControlRegister].
    unfold i2c_bind, i2c_ret, si5351_write.
    rewrite si5351_writeBulk_run. eexists. reflexivity.
  - destruct Hd as [E4 | Hd]; [contradiction |].
    unfold i2c_bind at 1. unfold i2c_bind at 1.
    unfold Int32.quot, Int32.rem. rewrite Hd.
    cbn [i2c_lift]. unfold i2c_bind at 1. cbn [i2c_lift i2c_ret].
    destruct (match output with
              | 0 => _ | 1 => _ | 2 => _ | _ => _
              end) as [[baseaddr phaseOffsetRegister] clkControlRegister].
    unfold i2c_bind, i2c_ret, si5351_write.
    rewrite si5351_writeBulk_run. eexists. reflexivity.
Qed.

(** Past the two guards, with a divider other than 4, operands on which
    the division of line 130 traps (a zero denominator, or INT32_MIN / -1)
    stop the program there: nothing is returned. *)
Lemma SetupOutput_division_traps output pllSource driveStrength conf
    phaseOffset w :
  output <= 2 ->
  ~ (OutputConfig.allowIntegerMode conf = 0
     /\ (OutputConfig.div conf < 8
         \/ (OutputConfig.div conf = 8 /\ OutputConfig.num conf = 0))) ->
  OutputConfig.div conf <> 4 ->
  Int32.traps (Int32.mul 128 (OutputConfig.num conf))
    (OutputConfig.denom conf) = true ->
  si5351_SetupOutput Wire_endTransmission output pllSource driveStrength
    conf phaseOffset w = None.
Proof.
  intros Ho Hg N4 Hz. unfold si5351_SetupOutput.
  destruct (Z.gtb_spec output 2); [lia |].
  destruct ((OutputConfig.allowIntegerMode conf =? 0)
            && ((OutputConfig.div conf <? 8)
                || ((OutputConfig.div conf =? 8)
                    && (OutputConfig.num conf =? 0)))) eqn:Eg.
  { apply divider_guard_iff in Eg. contradiction. }
  destruct (Z.eqb_spec (OutputConfig.div conf) 4); [contradiction |].
  unfold i2c_bind at 1. unfold Int32.quot. rewrite Hz. reflexivity.
Qed.

(** The traffic of [si5351_SetupPLL]: the optional integer-mode byte, the
    block computed by the general formulas with the divide-by-4 flag 0,
    and the reset. *)
Lemma SetupPLL_traffic pll conf w :
  Int32.traps (Int32.mul 128 (PLLConfig.num conf)) (PLLConfig.denom conf)
  = false ->
  let mult := PLLConfig.mult conf in
  let num := PLLConfig.num conf in
  let denom := PLLConfig.denom conf in
  let P1 :=
    Int32.sub
      (Int32.add (Int32.mul 128 mult)
         (Int32.wrap (Z.quot (Int32.mul 128 num) denom)))
      512 in
  let P2 := Z.rem (Int32.mul 128 num) denom in
  let intCtl :=
    if negb (PLLConfig.allowIntegerMode conf =? 0) && (num =? 0)
       && (Z.rem mult 2 =? 0)
    then [(match pll with SI5351_PLL_A => 22 | SI5351_PLL_B => 23 end, 192)]
    else [] in
  si5351_SetupPLL Wire_endTransmission pll conf w =
  Some (tt,
        w ++ intCtl
          ++ combine
               (block_addresses
                  (match pll with SI5351_PLL_A => 26 | SI5351_PLL_B => 34 end))
               (block_layout P1 P2 denom 0 0)
          ++ [(177, 160)]).
Proof.
  intros Hd mult num denom P1 P2 intCtl.
  unfold si5351_SetupPLL. fold mult num denom.
  fold num denom in Hd.
  unfold i2c_bind at 1. unfold Int32.quot. rewrite Hd.
  cbn [i2c_lift]. fold P1.
  unfold i2c_bind at 1. unfold Int32.rem. rewrite Hd.
  cbn [i2c_lift]. fold P2.
  subst intCtl.
  destruct (negb (PLLConfig.allowIntegerMode conf =? 0) && (num =? 0)
            && (Z.rem mult 2 =? 0));
    unfold i2c_bind, i2c_ret, si5351_write;
    rewrite (si5351_writeBulk_layout Wire_endTransmission)
      by (unfold SI5351_R_DIV_1; lia);
    destruct pll; rewrite <- ?app_assoc; reflexivity.
Qed.

End Programming.

(** ** The return code of the channel setup *)

(** The four ways a call of [si5351_SetupOutput] can go. *)
Lemma SetupOutput_cases Wire_endTransmission output pllSource driveStrength
    conf phaseOffset w :
  let refused :=
    OutputConfig.allowIntegerMode conf = 0
    /\ (OutputConfig.div conf < 8
        \/ (OutputConfig.div conf = 8 /\ OutputConfig.num conf = 0)) in
  let run :=
    si5351_SetupOutput Wire_endTransmission output pllSource driveStrength
      conf phaseOffset w in
  (output > 2 /\ run = Some (1, w))
  \/ (output <= 2 /\ refused /\ run = Some (2, w))
  \/ (output <= 2 /\ ~ refused /\ exists w', run = Some (0, w'))
  \/ (output <= 2 /\ ~ refused /\ run = None).
Proof.
  intros refused run.
  destruct (Z.gtb_spec output 2) as [Ho | Ho].
  { left. split; [lia |]. apply SetupOutput_invalid_channel. lia. }
  right.
  destruct ((OutputConfig.allowIntegerMode conf =? 0)
            && ((OutputConfig.div conf <? 8)
                || ((OutputConfig.div conf =? 8)
                    && (OutputConfig.num conf =? 0)))) eqn:Eg.
  { apply divider_guard_iff in Eg. destruct Eg as [Ha Hd].
    left. split; [exact Ho |]. split; [split; assumption |].
    apply SetupOutput_invalid_divider; assumption. }
  right.
  assert (Hn : ~ refused).
  { intros Hr. pose proof (proj2 (divider_guard_iff _ _ _) Hr) as Hb.
    rewrite Eg in Hb. discriminate. }
  destruct (Z.eq_dec (OutputConfig.div conf) 4) as [E4 | N4].
  { left. split; [exact Ho |]. split; [exact Hn |].
    apply SetupOutput_success; [exact Ho | exact Hn | now left]. }
  destruct (Int32.traps (Int32.mul 128 (OutputConfig.num conf))
              (OutputConfig.denom conf)) eqn:Et.
  - right. split; [exact Ho |]. split; [exact Hn |].
    apply SetupOutput_division_traps; assumption.
  - left. split; [exact Ho |]. split; [exact Hn |].
    apply SetupOutput_success; [exact Ho | exact Hn | now right].
Qed.




(** ** The divide-by-4 case *)

(** C5: for every call of [si5351_SetupOutput] with the divider 4, the
    parameter block it writes is the one of P1 = 0, P2 = 0, P3 = 1 with
    the divide-by-4 flag 0b11, whatever the fraction (a zero denominator
    included); the calls that write no block are the refused ones
    (channel above 2, or integer mode disallowed).  [si5351_SetupPLL]
    has no such case: wherever its division (128 * num) / denom is
    defined (the denominator is not zero, and it is not the division of
    INT32_MIN by -1) it writes the block of the general formulas with
    the flag 0, also for the multiplier 4. *)
Theorem SetupOutput_divide_by_4 Wire_endTransmission output pllSource
    driveStrength conf phaseOffset w :
  OutputConfig.div conf = 4 ->
  let run :=
    si5351_SetupOutput Wire_endTransmission output pllSource driveStrength
      conf phaseOffset w in
  (output > 2 -> run = Some (1, w))
  /\ (output <= 2 -> OutputConfig.allowIntegerMode conf = 0 ->
      run = Some (2, w))
  /\ (0 <= output <= 2 -> OutputConfig.allowIntegerMode conf <> 0 ->
      exists clkControl,
        run =
        Some (0,
              w ++ (16 + output, clkControl)
                   :: combine (block_addresses (42 + 8 * output))
                        (block_layout 0 0 1 3
                           (Z.land (OutputConfig.rdiv conf) 0x7))
                   ++ [(165 + output, Z.land phaseOffset 0x7F)]))
  /\ (forall pll pconf,
         PLLConfig.denom pconf <> 0 ->
         ~ (PLLConfig.denom pconf = -1
            /\ Int32.mul 128 (PLLConfig.num pconf) = Int32.min_signed) ->
         exists intCtl P1 P2,
           si5351_SetupPLL Wire_endTransmission pll pconf w =
           Some (tt,
                 w ++ intCtl
                   ++ combine
                        (block_addresses
                           (match pll with
                            | SI5351_PLL_A => 26
                            | SI5351_PLL_B => 34
                            end))
                        (block_layout P1 P2 (PLLConfig.denom pconf) 0 0)
                   ++ [(177, 160)]))
  /\ si5351_SetupPLL Wire_endTransmission SI5351_PLL_A
       (PLLConfig.mk 4 1 2 0) w =
     Some (tt,
           w ++ combine (block_addresses 26) (block_layout 64 0 2 0 0)
             ++ [(177, 160)]).
Proof.
  intros Hd run. split; [| split; [| split; [| split]]].
  - apply SetupOutput_invalid_channel.
  - intros Ho Ha. apply SetupOutput_invalid_divider; [exact Ho | exact Ha |].
    left. lia.
  - intros Ho Ha. now apply SetupOutput_div4_traffic.
  - intros pll pconf Hn Hv. eexists. eexists. eexists.
    apply SetupPLL_traffic. apply traps_false_iff. now split.
  - exact (SetupPLL_traffic Wire_endTransmission SI5351_PLL_A
             (PLLConfig.mk 4 1 2 0) w eq_refl).
Qed.

Lemma SetupOutput_divide_by_4_witness :
  (OutputConfig.div (OutputConfig.mk 1 4 7 0 6 0) = 4
   /\ 0 <= 2 <= 2
   /\ OutputConfig.allowIntegerMode (OutputConfig.mk 1 4 7 0 6 0) <> 0)
  /\ exists clkControl,
      si5351_SetupOutput (fun _ => 0) 2 SI5351_PLL_B 1
        (OutputConfig.mk 1 4 7 0 6 0) 0 [] =
      Some (0,
            [ (18, clkControl);
              (58, 0); (59, 1); (60, 108); (61, 0); (62, 0); (63, 0);
              (64, 0); (65, 0);
              (167, 0) ]).
Proof.
  assert (Hd : OutputConfig.div (OutputConfig.mk 1 4 7 0 6 0) = 4)
    by reflexivity.
  assert (Ho : 0 <= 2 <= 2) by lia.
  assert (Ha : OutputConfig.allowIntegerMode (OutputConfig.mk 1 4 7 0 6 0) <> 0)
    by (cbn; lia).
  split; [exact (conj Hd (conj Ho Ha)) |].
  destruct (SetupOutput_divide_by_4 (fun _ => 0) 2 SI5351_PLL_B 1
              (OutputConfig.mk 1 4 7 0 6 0) 0 [] Hd)
    as (_ & _ & H & _).
  exact (H Ho Ha).
Defined.

(** ** Refused calls write nothing *)

(** C10: whenever [si5351_SetupOutput] returns a code other than 0, the
    traffic is as it was before the call: both refusals (channel above 2,
    and divider requiring integer mode) return before any register
    write. *)
Theorem SetupOutput_error_writes_nothing Wire_endTransmission output
    pllSource driveStrength conf phaseOffset w :
  let run :=
    si5351_SetupOutput Wire_endTransmission output pllSource driveStrength
      conf phaseOffset w in
  (forall ret w', run = Some (ret, w') -> ret <> 0 -> w' = w)
  /\ (output > 2 -> run = Some (1, w))
  /\ (output <= 2 ->
      OutputConfig.allowIntegerMode conf = 0 ->
      OutputConfig.div conf < 8
      \/ (OutputConfig.div conf = 8 /\ OutputConfig.num conf = 0) ->
      run = Some (2, w)).
Proof.
  intros run. split; [| split].
  - subst run. intros ret w' H Hret.
    destruct (SetupOutput_cases Wire_endTransmission output pllSource
                driveStrength conf phaseOffset w)
      as [[Ho E] | [(Ho & Hr & E) | [(Ho & Hr & w0 & E) | (Ho & Hr & E)]]];
      rewrite E in H; try discriminate; injection H as <- <-;
      [reflexivity | reflexivity | contradiction].
  - apply SetupOutput_invalid_channel.
  - apply SetupOutput_invalid_divider.
Qed.

Lemma SetupOutput_error_writes_nothing_witness :
  (3 > 2
   /\ si5351_SetupOutput (fun _ => 0) 3 SI5351_PLL_A 1
        (OutputConfig.mk 1 90 0 1000000 0 0) 0 [(16, 128)]
      = Some (1, [(16, 128)])
   /\ 1 <> 0)
  /\ [(16, 128)] = [(16, 128)].
Proof.
  assert (Ho : 3 > 2) by lia.
  assert (Hret : 1 <> 0) by lia.
  destruct (SetupOutput_error_writes_nothing (fun _ => 0) 3 SI5351_PLL_A 1
              (OutputConfig.mk 1 90 0 1000000 0 0) 0 [(16, 128)])
    as (Hsame & Hchan & _).
  split; [exact (conj Ho (conj (Hchan Ho) Hret)) |].
  exact (Hsame 1 [(16, 128)] (Hchan Ho) Hret).
Defined.

(** A block written for the fixed 900 MHz PLL setting and another with
    every field in use. *)
Lemma writeBulk_block_layout_witness :
  (0 <= 3 < 4 /\ 0 <= 6 < 8)
  /\ si5351_writeBulk (fun _ => 0) 42 0x2ABCD 0x54321 0xFEDCB 3 6 [] =
     Some (tt,
           [ (42, 0xED); (43, 0xCB); (44, 0x6E); (45, 0xAB); (46, 0xCD);
             (47, 0xF5); (48, 0x43); (49, 0x21) ]).
Proof.
  assert (Hd : 0 <= 3 < 4) by lia.
  assert (Hr : 0 <= 6 < 8) by lia.
  split; [split; assumption |].
  exact (proj1 (writeBulk_block_layout (fun _ => 0) 42 0x2ABCD 0x54321
                  0xFEDCB 3 6 [] Hd Hr)).
Defined.

(** * Further properties *)

(** ** The quadrature planner: accuracy and divider *)

Lemma si5351_CalcIQ_divider F :
  let G := CalcIQ_clamp F in
  9 <= (if G <? 4900000 then 127
        else if G <? 8000000 then Z.quot 625000000 G
        else Z.quot 900000000 G) <= 127.
Proof.
  intros G. pose proof (CalcIQ_clamp_bounds F) as HB. fold G in HB.
  destruct (Z.ltb_spec G 4900000); [lia |].
  destruct (Z.ltb_spec G 8000000); Z.quot_rem_to_equations; nia.
Qed.

(** X1: for every target, the settings of [si5351_CalcIQ] (correction 0)
    stand for a frequency within 3 Hz of the clamped target. *)
Theorem CalcIQ_error_bound F pll out :
  exists p o,
    si5351_CalcIQ 0 F pll out = Some (p, o)
    /\ (Qabs (found_frequency p o - inject_Z (CalcIQ_clamp F)) <= 3 # 1)%Q.
Proof.
  destruct (si5351_CalcIQ_0 F pll out) as (-> & Hb & _).
  pose proof (si5351_CalcIQ_divider F) as Hd. cbv zeta in Hd.
  pose proof (CalcIQ_clamp_bounds F) as HB.
  set (G := CalcIQ_clamp F) in *.
  set (div := if G <? 4900000 then 127
              else if G <? 8000000 then Z.quot 625000000 G
              else Z.quot 900000000 G) in *.
  eexists. eexists. split; [reflexivity |].
  unfold SI5351_R_DIV_1.
  rewrite error_as_fraction by lia.
  apply (abs_fraction_le _ _ 3); [lia |].
  change (2 ^ 0) with 1.
  Z.quot_rem_to_equations. nia.
Qed.

(** ** The standard planner over its whole range *)

(** The error of the 900 MHz branch, with the share the R divider
    takes. *)
Lemma low_branch_error_rdiv F T e B ai oi oj :
  0 < F < 81000000 ->
  0 <= e ->
  F = T * 2 ^ e ->
  Z.shiftr F 20 <= B * 2 ^ e * Z.quot 900000000 F ->
  0 <= B ->
  (Qabs
     (found_frequency (PLLConfig.mk 36 0 1 ai)
        (OutputConfig.mk oi (Z.quot 900000000 F)
           (Z.quot (Z.rem 900000000 F) (Z.shiftr F 20 + 1))
           (Z.quot F (Z.shiftr F 20 + 1)) e oj)
      - inject_Z T) <= inject_Z B)%Q.
Proof.
  intros HF He HT HB HB0.
  destruct (low_branch_numerator F ltac:(lia)) as ((Hy0 & Hyz) & Hz & HN).
  cbv zeta in Hy0, Hyz, Hz, HN.
  assert (Hx : 11 <= Z.quot 900000000 F)
    by (apply Z.quot_le_lower_bound; lia).
  set (s := Z.shiftr F 20) in *. set (x := Z.quot 900000000 F) in *.
  set (y := Z.quot (Z.rem 900000000 F) (s + 1)) in *.
  set (z := Z.quot F (s + 1)) in *.
  assert (Hp : 1 <= 2 ^ e) by (pose proof (Z.pow_pos_nonneg 2 e); lia).
  rewrite error_as_fraction by nia.
  apply abs_fraction_le; [nia |].
  replace (25000000 * (36 * 1 + 0) * z - T * (x * z + y) * 1 * 2 ^ e)
    with (900000000 * z - F * (x * z + y)) by (rewrite HT; ring).
  set (E := 2 ^ e) in *.
  assert (Hsz : s * z <= B * E * x * z) by nia.
  assert (Hd : B * E * x * z <= B * (1 * (x * z + y) * E)) by nia.
  lia.
Qed.

(** The error of the branch at and above 81 MHz with the divider 4. *)
Lemma high_branch_error_div4 F ai oi oj :
  0 <= F ->
  (Qabs
     (found_frequency
        (PLLConfig.mk (Z.quot (4 * F) 25000000)
           (Z.quot (Z.rem (4 * F) 25000000) 24) 1041666 ai)
        (OutputConfig.mk oi 4 0 1 0 oj)
      - inject_Z F) <= inject_Z 6)%Q.
Proof.
  intros HF.
  rewrite error_as_fraction by lia.
  apply abs_fraction_le; [lia |].
  change (2 ^ 0) with 1.
  Z.quot_rem_to_equations; lia.
Qed.

(** X2: over the whole range [8,000, 160,000,000] that [si5351_Calc]
    documents, with correction 0, the settings stand for a frequency
    within 7 Hz of the target; within 6 Hz for every target up to 75 MHz
    and from 81 MHz on; and within 1 Hz below 1 MHz, where the R divider
    divides the error by 64 as well. *)
Theorem Calc_error_whole_range T pll out :
  8000 <= T <= 160000000 ->
  exists p o,
    si5351_Calc 0 T pll out = Some (p, o)
    /\ (Qabs (found_frequency p o - inject_Z T) <= 7 # 1)%Q
    /\ (T <= 75000000 \/ 81000000 <= T ->
        (Qabs (found_frequency p o - inject_Z T) <= 6 # 1)%Q)
    /\ (T < 1000000 ->
        (Qabs (found_frequency p o - inject_Z T) <= 1 # 1)%Q).
Proof.
  intros HT.
  destruct (Z.lt_ge_cases T 1000000) as [Hs | Hs].
  - rewrite si5351_Calc_0, Calc_clamp_id by lia.
    destruct (Z.ltb_spec T 1000000); [| lia].
    rewrite Calc_solve_low by lia.
    eexists. eexists. split; [reflexivity |].
    destruct (shiftr20_bounds (64 * T) ltac:(lia)) as [Hs0 Hs1].
    assert (Hx : 14 <= Z.quot 900000000 (64 * T))
      by (apply Z.quot_le_lower_bound; lia).
    assert (H1 : (Qabs
                    (found_frequency
                       (PLLConfig.mk 36 0 1 (PLLConfig.allowIntegerMode pll))
                       (OutputConfig.mk 1 (Z.quot 900000000 (64 * T))
                          (Z.quot (Z.rem 900000000 (64 * T))
                             (Z.shiftr (64 * T) 20 + 1))
                          (Z.quot (64 * T) (Z.shiftr (64 * T) 20 + 1))
                          SI5351_R_DIV_64 (OutputConfig.inverted out))
                     - inject_Z T) <= inject_Z 1)%Q).
    { apply (low_branch_error_rdiv (64 * T) T 6 1); lia. }
    repeat split; intros; (eapply Qle_trans; [exact H1 |]);
      apply Qle_bool_iff; reflexivity.
  - destruct (Z.le_gt_cases T 112500000) as [Hm | Hm].
    + destruct (Calc_error_bound T pll out ltac:(lia)) as (p & o & E & H7 & H6).
      exists p, o. repeat split; try assumption. lia.
    + rewrite si5351_Calc_0, Calc_clamp_id by lia.
      destruct (Z.ltb_spec T 1000000); [lia |].
      destruct (Calc_solve_high T pll
                  (OutputConfig.mk 1 (OutputConfig.div out)
                     (OutputConfig.num out) (OutputConfig.denom out)
                     SI5351_R_DIV_1
                     (OutputConfig.inverted out)) ltac:(lia)) as [-> _].
      destruct (Z.geb_spec T 100000000); [| lia].
      cbn [OutputConfig.allowIntegerMode OutputConfig.rdiv
           OutputConfig.inverted].
      eexists. eexists. split; [reflexivity |].
      assert (H6 : (Qabs
                      (found_frequency
                         (PLLConfig.mk
                            (Z.quot ((if T >=? 150000000 then 4 else 6) * T)
                               25000000)
                            (Z.quot
                               (Z.rem ((if T >=? 150000000 then 4 else 6) * T)
                                  25000000) 24)
                            1041666 (PLLConfig.allowIntegerMode pll))
                         (OutputConfig.mk 1
                            (if T >=? 150000000 then 4 else 6) 0 1
                            SI5351_R_DIV_1 (OutputConfig.inverted out))
                       - inject_Z T) <= inject_Z 6)%Q).
      { destruct (T >=? 150000000).
        - apply high_branch_error_div4. lia.
        - eapply Qle_trans;
            [apply high_branch_error; [lia | now left] |].
          apply Qle_bool_iff; reflexivity. }
      repeat split; intros; try lia; (eapply Qle_trans; [exact H6 |]);
        apply Qle_bool_iff; reflexivity.
Qed.

Lemma Calc_error_whole_range_witness :
  8000 <= 8000 <= 160000000
  /\ exists p o,
      si5351_Calc 0 8000 (PLLConfig.mk 0 0 0 0) (OutputConfig.mk 0 0 0 0 0 0)
      = Some (p, o)
      /\ (Qabs (found_frequency p o - inject_Z 8000) <= 7 # 1)%Q.
Proof.
  assert (H : 8000 <= 8000 <= 160000000) by lia.
  split; [exact H |].
  destruct (Calc_error_whole_range 8000 (PLLConfig.mk 0 0 0 0)
              (OutputConfig.mk 0 0 0 0 0 0) H) as (p & o & E & H7 & _).
  exists p, o. split; [exact E | exact H7].
Defined.

(** ** When the standard planner divides by zero *)

Lemma shiftr20_minus1 F :
  Int32.in_range F ->
  (Int32.add (Z.shiftr F 20) 1 = 0 <-> - 1048576 <= F <= -1).
Proof.
  unfold Int32.in_range, Int32.min_signed, Int32.max_signed. intros HF.
  rewrite Z.shiftr_div_pow2 by lia. change (2 ^ 20) with 1048576.
  unfold Int32.add.
  rewrite wrap_small
    by (apply in_range_bounds; Z.div_mod_to_equations; lia).
  Z.div_mod_to_equations. lia.
Qed.

Lemma Calc_solve_fails Fc pll out :
  Int32.in_range Fc ->
  (Calc_solve Fc pll out = None <-> - 1048576 <= Fc <= 0).
Proof.
  intros HF. pose proof (shiftr20_minus1 Fc HF) as Ht.
  unfold Calc_solve.
  destruct (Z.ltb_spec Fc 81000000) as [Hlo | Hhi].
  - destruct (Z.eq_dec Fc 0) as [E0 | N0].
    { rewrite (quot_traps 900000000 Fc) by (rewrite E0; reflexivity).
      cbn [obind]. split; [lia | reflexivity]. }
    rewrite (quot_defined 900000000 Fc), (rem_defined 900000000 Fc)
      by (apply traps_false; lia).
    cbn [obind].
    destruct (Z.eq_dec (Int32.add (Z.shiftr Fc 20) 1) 0) as [Et | Nt].
    + rewrite (quot_traps _ (Int32.add (Z.shiftr Fc 20) 1))
        by (rewrite Et; reflexivity).
      cbn [obind]. split; [intros _; lia | reflexivity].
    + rewrite (quot_defined (Z.rem 900000000 Fc)).
      2:{ apply traps_false; [exact Nt | right].
          pose proof (Z.rem_nonneg 900000000 Fc N0 ltac:(lia)). lia. }
      rewrite (quot_defined Fc).
      2:{ apply traps_false; [exact Nt |].
          destruct (Z.eq_dec Fc (- 2147483648)) as [-> | N];
            [left; vm_compute; discriminate | right; exact N]. }
      cbn [obind]. split; [discriminate | lia].
  - cbn. split; [discriminate | lia].
Qed.

(** [si5351_Calc] as the search on the corrected target. *)
Lemma si5351_Calc_as_solve corr F pll out :
  let F1 :=
    if Calc_clamp F <? 1000000 then 64 * Calc_clamp F else Calc_clamp F in
  si5351_Calc corr F pll out =
  Calc_solve
    (Int32.wrap (F1 - Z.quot (Int32.wrap (Z.quot F1 1000000 * corr)) 100))
    pll
    (OutputConfig.mk 1 (OutputConfig.div out) (OutputConfig.num out)
       (OutputConfig.denom out)
       (if Calc_clamp F <? 1000000 then SI5351_R_DIV_64 else SI5351_R_DIV_1)
       (OutputConfig.inverted out)).
Proof.
  intros F1. pose proof (Calc_clamp_bounds F) as HB.
  assert (H1 : 512000 <= F1 <= 160000000).
  { subst F1. destruct (Z.ltb_spec (Calc_clamp F) 1000000); lia. }
  unfold si5351_Calc. rewrite Calc_prescale_eq. fold F1.
  rewrite apply_correction_eq by (apply in_range_bounds; lia).
  reflexivity.
Qed.

(** With a correction that does not overflow, the corrected target stays
    positive and below 182 MHz. *)
Lemma corrected_target_positive corr F :
  - 13421772 <= corr <= 13421772 ->
  let F1 :=
    if Calc_clamp F <? 1000000 then 64 * Calc_clamp F else Calc_clamp F in
  0 < Int32.wrap (F1 - Z.quot (Int32.wrap (Z.quot F1 1000000 * corr)) 100)
    <= 181474836.
Proof.
  intros Hc F1. pose proof (Calc_clamp_bounds F) as HB.
  assert (H1 : 512000 <= F1 <= 160000000).
  { subst F1. destruct (Z.ltb_spec (Calc_clamp F) 1000000); lia. }
  rewrite apply_correction_exact by lia.
  unfold corrected_target.
  assert (Hq : 0 <= Z.quot F1 1000000 <= 160
               /\ Z.quot F1 1000000 * 1000000 <= F1)
    by (Z.quot_rem_to_equations; lia).
  assert (Hm : Z.quot F1 1000000 * corr
               <= Z.quot F1 1000000 * 13421772) by nia.
  assert (Hm' : - (Z.quot F1 1000000 * 13421772)
                <= Z.quot F1 1000000 * corr) by nia.
  Z.quot_rem_to_equations; lia.
Qed.

(** X3: for every target and every correction, [si5351_Calc] stops in a
    division by zero exactly when the corrected target lies in
    [-1,048,576, 0] (zero, or negative with [(Fclk >> 20) + 1 = 0]);
    with a correction of at most 13,421,772 in magnitude the corrected
    target is positive and the planner always returns settings. *)
Theorem Calc_fails_exactly corr F pll out :
  let F1 :=
    if Calc_clamp F <? 1000000 then 64 * Calc_clamp F else Calc_clamp F in
  let Fclk :=
    Int32.wrap (F1 - Z.quot (Int32.wrap (Z.quot F1 1000000 * corr)) 100) in
  (si5351_Calc corr F pll out = None <-> - 1048576 <= Fclk <= 0)
  /\ (- 13421772 <= corr <= 13421772 ->
      0 < Fclk /\ exists p o, si5351_Calc corr F pll out = Some (p, o)).
Proof.
  intros F1 Fclk.
  assert (Hiff : si5351_Calc corr F pll out = None
                 <-> - 1048576 <= Fclk <= 0).
  { rewrite si5351_Calc_as_solve. apply Calc_solve_fails, wrap_in_range. }
  split; [exact Hiff |].
  intros Hc.
  pose proof (corrected_target_positive corr F Hc) as Hpos.
  cbv zeta in Hpos. fold F1 in Hpos. fold Fclk in Hpos.
  split; [lia |].
  destruct (si5351_Calc corr F pll out) as [[p o] |] eqn:Er.
  - exists p, o. reflexivity.
  - pose proof (proj1 Hiff eq_refl). lia.
Qed.

Lemma Calc_fails_exactly_witness :
  - 13421772 <= 970 <= 13421772
  /\ exists p o,
      si5351_Calc 970 10000097 (PLLConfig.mk 0 0 0 0)
        (OutputConfig.mk 0 0 0 0 0 0) = Some (p, o).
Proof.
  assert (Hc : - 13421772 <= 970 <= 13421772) by lia.
  split; [exact Hc |].
  destruct (Calc_fails_exactly 970 10000097 (PLLConfig.mk 0 0 0 0)
              (OutputConfig.mk 0 0 0 0 0 0)) as [_ H].
  exact (proj2 (H Hc)).
Defined.

(** ** Scaling by 64 below 1 MHz *)

Lemma Calc_solve_rdiv Fc pll a d n dn r r' i :
  Calc_solve Fc pll (OutputConfig.mk a d n dn r i) =
  match Calc_solve Fc pll (OutputConfig.mk a d n dn r' i) with
  | Some (p, o) =>
      Some (p,
            OutputConfig.mk (OutputConfig.allowIntegerMode o)
              (OutputConfig.div o) (OutputConfig.num o)
              (OutputConfig.denom o) r (OutputConfig.inverted o))
  | None => None
  end.
Proof.
  unfold Calc_solve.
  destruct (if Fc <? 81000000 then _ else _) as [[[[[[a0 b] c] x] y] z] |];
    reflexivity.
Qed.

(** X4: for a target in [15,625, 1,000,000) and every correction,
    [si5351_Calc] returns what it returns for 64 times the target, with
    the R divider exponent 6 in place of 0; it fails when that call
    fails. *)
Theorem Calc_scaled_by_64 corr F pll out :
  15625 <= F < 1000000 ->
  si5351_Calc corr F pll out =
  match si5351_Calc corr (64 * F) pll out with
  | Some (p, o) =>
      Some (p,
            OutputConfig.mk (OutputConfig.allowIntegerMode o)
              (OutputConfig.div o) (OutputConfig.num o)
              (OutputConfig.denom o) SI5351_R_DIV_64
              (OutputConfig.inverted o))
  | None => None
  end.
Proof.
  intros HF. unfold si5351_Calc. rewrite !Calc_prescale_eq.
  rewrite (Calc_clamp_id F), (Calc_clamp_id (64 * F)) by lia.
  destruct (Z.ltb_spec F 1000000); [| lia].
  destruct (Z.ltb_spec (64 * F) 1000000); [lia |].
  destruct (apply_correction corr (64 * F)) as [Fc |]; [| reflexivity].
  cbn [obind].
  apply Calc_solve_rdiv.
Qed.

Lemma Calc_scaled_by_64_witness :
  15625 <= 400000 < 1000000
  /\ si5351_Calc 0 400000 (PLLConfig.mk 0 0 0 0) (OutputConfig.mk 0 0 0 0 0 0)
     = Some (PLLConfig.mk 36 0 1 0, OutputConfig.mk 1 35 160000 1024000 6 0).
Proof.
  assert (H : 15625 <= 400000 < 1000000) by lia.
  split; [exact H |].
  exact (Calc_scaled_by_64 0 400000 (PLLConfig.mk 0 0 0 0)
           (OutputConfig.mk 0 0 0 0 0 0) H).
Defined.

(** ** Registers after some traffic *)

Lemma last_write_app reg w1 w2 :
  last_write reg (w1 ++ w2) =
  match last_write reg w2 with
  | Some v => Some v
  | None => last_write reg w1
  end.
Proof.
  induction w1 as [| [a d] w1 IH]; cbn [app last_write].
  - destruct (last_write reg w2); reflexivity.
  - rewrite IH. destruct (last_write reg w2); reflexivity.
Qed.

Lemma last_write_not_written reg w :
  ~ In reg (written w) -> last_write reg w = None.
Proof.
  unfold written. induction w as [| [a d] w IH]; cbn [map fst In last_write].
  - reflexivity.
  - intros H. rewrite IH by tauto.
    destruct (Z.eqb_spec a reg); [exfalso; tauto | reflexivity].
Qed.

Lemma last_write_untouched reg w t :
  ~ In reg (written t) -> last_write reg (w ++ t) = last_write reg w.
Proof.
  intros H. rewrite last_write_app, last_write_not_written by exact H.
  reflexivity.
Qed.

Lemma written_app w1 w2 : written (w1 ++ w2) = written w1 ++ written w2.
Proof. unfold written. apply map_app. Qed.

Lemma written_block baseaddr data :
  length data = 8%nat ->
  written (combine (block_addresses baseaddr) data) = block_addresses baseaddr.
Proof.
  intros H. unfold written.
  destruct data
    as [| d0 [| d1 [| d2 [| d3 [| d4 [| d5 [| d6 [| d7 [| d8 l]]]]]]]]];
    try discriminate.
  reflexivity.
Qed.

(** ** The block encoding loses nothing *)

Lemma field20_bits x :
  0 <= x < 2 ^ 20 ->
  x = bits 19 16 x * 65536 + bits 15 8 x * 256 + bits 7 0 x.
Proof.
  intros H. unfold bits.
  change (2 ^ 20) with 1048576 in H. change (2 ^ 16) with 65536.
  change (2 ^ 8) with 256. change (2 ^ 0) with 1.
  change (2 ^ (19 - 16 + 1)) with 16. change (2 ^ (15 - 8 + 1)) with 256.
  change (2 ^ (7 - 0 + 1)) with 256.
  Z.div_mod_to_equations. lia.
Qed.

Lemma field18_bits x :
  0 <= x < 2 ^ 18 ->
  x = bits 17 16 x * 65536 + bits 15 8 x * 256 + bits 7 0 x.
Proof.
  intros H. unfold bits.
  change (2 ^ 18) with 262144 in H. change (2 ^ 16) with 65536.
  change (2 ^ 8) with 256. change (2 ^ 0) with 1.
  change (2 ^ (17 - 16 + 1)) with 4. change (2 ^ (15 - 8 + 1)) with 256.
  change (2 ^ (7 - 0 + 1)) with 256.
  Z.div_mod_to_equations. lia.
Qed.

Lemma bits_bounds hi lo x : lo <= hi -> 0 <= bits hi lo x < 2 ^ (hi - lo + 1).
Proof.
  intros H. unfold bits. apply Z.mod_pos_bound.
  apply Z.pow_pos_nonneg; lia.
Qed.

Lemma lor_shiftl_add a b n :
  0 <= n -> 0 <= b < 2 ^ n -> Z.lor (Z.shiftl a n) b = a * 2 ^ n + b.
Proof.
  intros Hn Hb. rewrite <- Z.shiftl_mul_pow2 by exact Hn.
  apply Z.or_to_plus.
  apply Z.bits_inj'. intros i Hi. rewrite Z.land_spec, Z.bits_0.
  destruct (Z.lt_ge_cases i n).
  - now rewrite Z.shiftl_spec_low by lia.
  - replace b with (b mod 2 ^ n) by (apply Z.mod_small; lia).
    rewrite Z.mod_pow2_bits_high by lia. apply andb_false_r.
Qed.

Lemma flags_byte_value p d r :
  0 <= p < 4 -> 0 <= d < 4 ->
  Z.lor (Z.lor p (Z.shiftl d 2)) (Z.shiftl r 4) = r * 16 + (d * 4 + p).
Proof.
  intros Hp Hd.
  rewrite (Z.lor_comm p), (lor_shiftl_add d p 2) by (cbn; lia).
  rewrite Z.lor_comm, lor_shiftl_add by (cbn; lia).
  reflexivity.
Qed.

Section Lossless.

Variable Wire_endTransmission : bus -> Z.

(** X5: the block [si5351_writeBulk] writes determines its arguments:
    two calls with P1 in 18 bits, P2 and P3 in 20 bits, divBy4 in 2 bits
    and rdiv in 3 bits that issue the same traffic have the same
    arguments. *)
Theorem writeBulk_lossless baseaddr w P1 P2 P3 divBy4 rdiv
    P1' P2' P3' divBy4' rdiv' :
  0 <= P1 < 2 ^ 18 -> 0 <= P2 < 2 ^ 20 -> 0 <= P3 < 2 ^ 20 ->
  0 <= divBy4 < 4 -> 0 <= rdiv < 8 ->
  0 <= P1' < 2 ^ 18 -> 0 <= P2' < 2 ^ 20 -> 0 <= P3' < 2 ^ 20 ->
  0 <= divBy4' < 4 -> 0 <= rdiv' < 8 ->
  si5351_writeBulk Wire_endTransmission baseaddr P1 P2 P3 divBy4 rdiv w =
  si5351_writeBulk Wire_endTransmission baseaddr P1' P2' P3' divBy4' rdiv' w ->
  P1 = P1' /\ P2 = P2' /\ P3 = P3' /\ divBy4 = divBy4' /\ rdiv = rdiv'.
Proof.
  intros H1 H2 H3 Hd Hr H1' H2' H3' Hd' Hr' E.
  rewrite !(si5351_writeBulk_layout Wire_endTransmission) in E by assumption.
  assert (E' : w ++ combine (block_addresses baseaddr)
                      (block_layout P1 P2 P3 divBy4 rdiv)
               = w ++ combine (block_addresses baseaddr)
                        (block_layout P1' P2' P3' divBy4' rdiv'))
    by congruence.
  clear E. rename E' into E. apply app_inv_head in E.
  unfold block_addresses, block_layout in E. cbn [map combine] in E.
  pose proof (f_equal (fun l => snd (nth 0 l (0, 0))) E) as E0.
  pose proof (f_equal (fun l => snd (nth 1 l (0, 0))) E) as E1.
  pose proof (f_equal (fun l => snd (nth 2 l (0, 0))) E) as E2.
  pose proof (f_equal (fun l => snd (nth 3 l (0, 0))) E) as E3.
  pose proof (f_equal (fun l => snd (nth 4 l (0, 0))) E) as E4.
  pose proof (f_equal (fun l => snd (nth 5 l (0, 0))) E) as E5.
  pose proof (f_equal (fun l => snd (nth 6 l (0, 0))) E) as E6.
  pose proof (f_equal (fun l => snd (nth 7 l (0, 0))) E) as E7.
  cbn [nth snd] in E0, E1, E2, E3, E4, E5, E6, E7. clear E.
  pose proof (bits_bounds 17 16 P1 ltac:(lia)) as B1.
  pose proof (bits_bounds 17 16 P1' ltac:(lia)) as B1'.
  pose proof (bits_bounds 19 16 P2 ltac:(lia)) as B2.
  pose proof (bits_bounds 19 16 P2' ltac:(lia)) as B2'.
  change (2 ^ (17 - 16 + 1)) with 4 in B1, B1'.
  change (2 ^ (19 - 16 + 1)) with 16 in B2, B2'.
  rewrite !flags_byte_value in E2 by assumption.
  rewrite !lor_shiftl_add in E5 by (cbn; lia).
  change (2 ^ 4) with 16 in E5.
  pose proof (bits_bounds 19 16 P3 ltac:(lia)) as B3.
  pose proof (bits_bounds 19 16 P3' ltac:(lia)) as B3'.
  change (2 ^ (19 - 16 + 1)) with 16 in B3, B3'.
  pose proof (field18_bits P1 H1). pose proof (field18_bits P1' H1').
  pose proof (field20_bits P2 H2). pose proof (field20_bits P2' H2').
  pose proof (field20_bits P3 H3). pose proof (field20_bits P3' H3').
  lia.
Qed.

End Lossless.

Lemma writeBulk_lossless_witness :
  (0 <= 4096 < 2 ^ 18 /\ 0 <= 0 < 2 ^ 20 /\ 0 <= 1 < 2 ^ 20
   /\ 0 <= 0 < 4 /\ 0 <= 0 < 8
   /\ si5351_writeBulk (fun _ => 0) 26 4096 0 1 0 0 [] =
      si5351_writeBulk (fun _ => 0) 26 4096 0 1 0 0 [])
  /\ 4096 = 4096 /\ 0 = 0 /\ 1 = 1 /\ 0 = 0 /\ 0 = 0.
Proof.
  assert (H1 : 0 <= 4096 < 2 ^ 18) by (cbn; lia).
  assert (H2 : 0 <= 0 < 2 ^ 20) by (cbn; lia).
  assert (H3 : 0 <= 1 < 2 ^ 20) by (cbn; lia).
  assert (Hd : 0 <= 0 < 4) by lia.
  assert (Hr : 0 <= 0 < 8) by lia.
  split.
  - repeat (split; [assumption |]). reflexivity.
  - exact (writeBulk_lossless (fun _ => 0) 26 [] 4096 0 1 0 0 4096 0 1 0 0
             H1 H2 H3 Hd Hr H1 H2 H3 Hd Hr eq_refl).
Defined.

(** ** Programming a PLL: fields, failure and the integer-mode flag *)

Lemma packed_fields_exact m n d :
  4 <= m <= 2047 -> 1 <= d < 2 ^ 20 -> 0 <= n <= d ->
  let P1 := 128 * m + (128 * n) / d - 512 in
  let P2 := (128 * n) mod d in
  Int32.sub (Int32.add (Int32.mul 128 m)
               (Int32.wrap (Z.quot (Int32.mul 128 n) d))) 512 = P1
  /\ Z.rem (Int32.mul 128 n) d = P2
  /\ 0 <= P1 < 2 ^ 18 /\ 0 <= P2 < 2 ^ 20.
Proof.
  intros Hm Hd Hn P1 P2. change (2 ^ 20) with 1048576 in *.
  change (2 ^ 18) with 262144.
  assert (Hq : 0 <= (128 * n) / d <= 128).
  { split; [apply Z.div_pos; lia |].
    apply Z.div_le_upper_bound; lia. }
  assert (Hr : 0 <= (128 * n) mod d < d) by (apply Z.mod_pos_bound; lia).
  unfold Int32.mul, Int32.add, Int32.sub.
  rewrite (wrap_small (128 * n)) by (apply in_range_bounds; lia).
  rewrite (wrap_small (128 * m)) by (apply in_range_bounds; lia).
  rewrite Z.quot_div_nonneg, Z.rem_mod_nonneg by lia.
  rewrite (wrap_small (128 * n / d)) by (apply in_range_bounds; lia).
  rewrite (wrap_small (128 * m + 128 * n / d))
    by (apply in_range_bounds; lia).
  rewrite wrap_small by (apply in_range_bounds; lia).
  subst P1 P2. repeat split; lia.
Qed.

Section ProgrammingMore.

Variable Wire_endTransmission : bus -> Z.

(** Operands on which the division of line 76 traps stop the program
    there: nothing is returned. *)
Lemma SetupPLL_division_traps pll conf w :
  Int32.traps (Int32.mul 128 (PLLConfig.num conf)) (PLLConfig.denom conf)
  = true ->
  si5351_SetupPLL Wire_endTransmission pll conf w = None.
Proof.
  intros Hz. unfold si5351_SetupPLL.
  unfold i2c_bind at 1. unfold Int32.quot. rewrite Hz. reflexivity.
Qed.

(** A call of [si5351_SetupPLL] that returns has divided without a trap. *)
Lemma SetupPLL_returns_defined pll conf w r :
  si5351_SetupPLL Wire_endTransmission pll conf w = Some r ->
  Int32.traps (Int32.mul 128 (PLLConfig.num conf)) (PLLConfig.denom conf)
  = false.
Proof.
  intros E.
  destruct (Int32.traps (Int32.mul 128 (PLLConfig.num conf))
              (PLLConfig.denom conf)) eqn:Et; [| reflexivity].
  rewrite SetupPLL_division_traps in E by exact Et. discriminate.
Qed.

(** X6: [si5351_SetupPLL] returns nothing exactly when its division
    (128 * num) / denom has no defined result: denom is 0, or it is the
    division of INT32_MIN by -1, whose quotient does not fit in 32 bits.
    For a multiplier in [4, 2047] and a fraction with
    0 <= num <= denom < 2^20, nothing overflows: it writes the optional
    integer-mode byte, the block of P1 = 128 mult + (128 num) / denom - 512,
    P2 = (128 num) mod denom, P3 = denom with flag 0 and R divider 0,
    where P1 fits 18 bits and P2 and P3 fit 20 bits, and the reset byte
    0xA0 to register 177, in this order. *)
Theorem SetupPLL_fields pll conf w :
  (si5351_SetupPLL Wire_endTransmission pll conf w = None
   <-> PLLConfig.denom conf = 0
       \/ (PLLConfig.denom conf = -1
           /\ Int32.mul 128 (PLLConfig.num conf) = Int32.min_signed))
  /\ (4 <= PLLConfig.mult conf <= 2047 ->
      1 <= PLLConfig.denom conf < 2 ^ 20 ->
      0 <= PLLConfig.num conf <= PLLConfig.denom conf ->
      let P1 :=
        128 * PLLConfig.mult conf
        + (128 * PLLConfig.num conf) / PLLConfig.denom conf - 512 in
      let P2 := (128 * PLLConfig.num conf) mod PLLConfig.denom conf in
      0 <= P1 < 2 ^ 18 /\ 0 <= P2 < 2 ^ 20
      /\ si5351_SetupPLL Wire_endTransmission pll conf w =
         Some (tt,
               w ++ (if negb (PLLConfig.allowIntegerMode conf =? 0)
                        && (PLLConfig.num conf =? 0)
                        && (Z.rem (PLLConfig.mult conf) 2 =? 0)
                     then [(match pll with
                            | SI5351_PLL_A => 22
                            | SI5351_PLL_B => 23
                            end, 192)]
                     else [])
                 ++ combine
                      (block_addresses
                         (match pll with
                          | SI5351_PLL_A => 26
                          | SI5351_PLL_B => 34
                          end))
                      (block_layout P1 P2 (PLLConfig.denom conf) 0 0)
                 ++ [(177, 160)])).
Proof.
  split.
  - split.
    + intros HN. apply traps_true_iff.
      destruct (Int32.traps (Int32.mul 128 (PLLConfig.num conf))
                  (PLLConfig.denom conf)) eqn:Et; [reflexivity |].
      rewrite (SetupPLL_traffic Wire_endTransmission pll conf w Et) in HN.
      discriminate.
    + intros Ht. apply SetupPLL_division_traps. now apply traps_true_iff.
  - intros Hm Hd Hn P1 P2.
    destruct (packed_fields_exact _ _ _ Hm Hd Hn) as (E1 & E2 & B1 & B2).
    fold P1 in E1, B1. fold P2 in E2, B2.
    split; [exact B1 |]. split; [exact B2 |].
    rewrite (SetupPLL_traffic Wire_endTransmission pll conf w)
      by (apply traps_pos; lia).
    cbv zeta. rewrite E1, E2. reflexivity.
Qed.

(** X7: [si5351_SetupPLL] only ever sets the integer-mode flag.  After a
    call that returns, the flag register of the PLL (22 for A, 23 for B)
    holds 0xC0 if integer mode applies (allowed, num = 0, mult even) and
    what it held before otherwise, so a later fractional setting does not
    clear it; the flag register of the other PLL is as before. *)
Theorem SetupPLL_integer_flag pll conf w w' :
  si5351_SetupPLL Wire_endTransmission pll conf w = Some (tt, w') ->
  let own := match pll with SI5351_PLL_A => 22 | SI5351_PLL_B => 23 end in
  let other := match pll with SI5351_PLL_A => 23 | SI5351_PLL_B => 22 end in
  last_write own w' =
    (if negb (PLLConfig.allowIntegerMode conf =? 0)
        && (PLLConfig.num conf =? 0)
        && (Z.rem (PLLConfig.mult conf) 2 =? 0)
     then Some 192
     else last_write own w)
  /\ last_write other w' = last_write other w.
Proof.
  intros E own other.
  pose proof (SetupPLL_returns_defined pll conf w _ E) as Nz.
  pose proof (SetupPLL_traffic Wire_endTransmission pll conf w Nz) as T.
  cbv zeta in T. set (blk := block_layout _ _ _ _ _) in T.
  assert (Hlen : length blk = 8%nat) by reflexivity.
  clearbody blk. rewrite T in E. injection E as <-.
  rewrite !app_assoc.
  assert (Hown : forall t,
             last_write own
               ((t ++ combine (block_addresses
                                 (match pll with
                                  | SI5351_PLL_A => 26
                                  | SI5351_PLL_B => 34
                                  end)) blk) ++ [(177, 160)])
             = last_write own t).
  { intros t. rewrite <- app_assoc. apply last_write_untouched.
    rewrite written_app, written_block by exact Hlen.
    subst own. destruct pll; cbn; lia. }
  assert (Hother : forall t,
             last_write other
               ((t ++ combine (block_addresses
                                 (match pll with
                                  | SI5351_PLL_A => 26
                                  | SI5351_PLL_B => 34
                                  end)) blk) ++ [(177, 160)])
             = last_write other t).
  { intros t. rewrite <- app_assoc. apply last_write_untouched.
    rewrite written_app, written_block by exact Hlen.
    subst other. destruct pll; cbn; lia. }
  rewrite Hown, Hother.
  destruct (negb (PLLConfig.allowIntegerMode conf =? 0)
            && (PLLConfig.num conf =? 0)
            && (Z.rem (PLLConfig.mult conf) 2 =? 0)).
  - rewrite !last_write_app. subst own other.
    destruct pll; cbn; split; reflexivity.
  - rewrite !app_nil_r. split; reflexivity.
Qed.

End ProgrammingMore.

(** ** Programming an output: the control byte and the fields *)

Lemma land_mod_pow2 x n k :
  k = Z.ones n -> 0 <= n -> Z.land x k = x mod 2 ^ n.
Proof. intros -> Hn. now apply Z.land_ones. Qed.

(** The control byte of lines 158-167 as a sum: 0x0C, the drive
    strength, and the bits 4, 5 and 6. *)
Lemma clkControl_value driveStrength inverted pllSource (int : bool) :
  0 <= driveStrength <= 3 ->
  let c0 := uint8 (Z.lor 0x0C driveStrength) in
  let c1 :=
    uint8 (Z.lor c0 (Z.shiftl (uint8 (Z.land inverted 0x01)) 4)) in
  let c2 :=
    match pllSource with
    | SI5351_PLL_B => uint8 (Z.lor c1 (Z.shiftl 1 5))
    | SI5351_PLL_A => c1
    end in
  let c3 := if int then uint8 (Z.lor c2 (Z.shiftl 1 6)) else c2 in
  uint8 c3 =
  12 + driveStrength + 16 * (inverted mod 2)
  + (match pllSource with SI5351_PLL_B => 32 | SI5351_PLL_A => 0 end)
  + (if int then 64 else 0).
Proof.
  intros Hd.
  rewrite (land_mod_pow2 inverted 1 0x01) by (reflexivity || lia).
  change (2 ^ 1) with 2.
  pose proof (Z.mod_pos_bound inverted 2 ltac:(lia)) as Hi.
  assert (Hds : driveStrength = 0 \/ driveStrength = 1
                \/ driveStrength = 2 \/ driveStrength = 3) by lia.
  assert (His : inverted mod 2 = 0 \/ inverted mod 2 = 1) by lia.
  destruct Hds as [-> | [-> | [-> | ->]]];
    destruct His as [-> | ->]; destruct pllSource; destruct int;
    reflexivity.
Qed.

Section OutputTraffic.

Variable Wire_endTransmission : bus -> Z.

(** Past the two guards with a divider other than 4, as the code
    computes it. *)
Lemma SetupOutput_traffic_code output pllSource driveStrength conf
    phaseOffset w :
  0 <= output <= 2 ->
  ~ (OutputConfig.allowIntegerMode conf = 0
     /\ (OutputConfig.div conf < 8
         \/ (OutputConfig.div conf = 8 /\ OutputConfig.num conf = 0))) ->
  OutputConfig.div conf <> 4 ->
  Int32.traps (Int32.mul 128 (OutputConfig.num conf))
    (OutputConfig.denom conf) = false ->
  let div := OutputConfig.div conf in
  let num := OutputConfig.num conf in
  let denom := OutputConfig.denom conf in
  let c0 := uint8 (Z.lor 0x0C driveStrength) in
  let c1 :=
    uint8 (Z.lor c0
             (Z.shiftl (uint8 (Z.land (OutputConfig.inverted conf) 0x01)) 4)) in
  let c2 :=
    match pllSource with
    | SI5351_PLL_B => uint8 (Z.lor c1 (Z.shiftl 1 5))
    | SI5351_PLL_A => c1
    end in
  let c3 :=
    if negb (OutputConfig.allowIntegerMode conf =? 0) && (num =? 0)
    then uint8 (Z.lor c2 (Z.shiftl 1 6))
    else c2 in
  si5351_SetupOutput Wire_endTransmission output pllSource driveStrength
    conf phaseOffset w =
  Some (0,
        w ++ (16 + output, uint8 c3)
             :: combine (block_addresses (42 + 8 * output))
                  (block_layout
                     (Int32.sub
                        (Int32.add (Int32.mul 128 div)
                           (Int32.wrap (Z.quot (Int32.mul 128 num) denom)))
                        512)
                     (Z.rem (Int32.mul 128 num) denom) denom 0
                     (Z.land (OutputConfig.rdiv conf) 0x7))
             ++ [(165 + output, Z.land phaseOffset 0x7F)]).
Proof.
  intros Ho Hg N4 Nz div num denom c0 c1 c2 c3.
  fold num denom in Nz.
  unfold si5351_SetupOutput. fold div num denom.
  destruct (Z.gtb_spec output 2); [lia |].
  destruct ((OutputConfig.allowIntegerMode conf =? 0)
            && ((div <? 8) || ((div =? 8) && (num =? 0)))) eqn:Eg.
  { apply divider_guard_iff in Eg. contradiction. }
  destruct (Z.eqb_spec div 4) as [E4 | _]; [contradiction |].
  rewrite orb_false_r. fold c0. fold c1. fold c2. fold c3.
  unfold i2c_bind at 1. unfold i2c_bind at 1.
  unfold Int32.quot, Int32.rem. rewrite Nz.
  cbn [i2c_lift]. unfold i2c_bind at 1. cbn [i2c_lift i2c_ret].
  assert (Hc : output = 0 \/ output = 1 \/ output = 2) by lia.
  destruct Hc as [-> | [-> | ->]];
    unfold i2c_bind, i2c_ret, si5351_write;
    rewrite (si5351_writeBulk_masked Wire_endTransmission);
    rewrite land_7F_byte;
    rewrite <- !app_assoc; cbn [app];
    reflexivity.
Qed.

(** X8: a call of [si5351_SetupOutput] for channel 0, 1 or 2 that is not
    refused, with a drive strength in [0, 3], a divider in [6, 2047] and
    a fraction with 0 <= num <= denom < 2^20, returns 0 and issues
    exactly ten writes in this order: the control byte
    0x0C + drive strength + 16 (inverted bit) + 32 (PLL B) + 64 (integer
    mode allowed and num = 0) to register 16 + channel; the block of
    P1 = 128 div + (128 num) / denom - 512, P2 = (128 num) mod denom,
    P3 = denom, flag 0 and R divider rdiv mod 8 from register
    42 + 8 channel, with P1 in 18 bits and P2 in 20 bits; and the phase
    offset modulo 128 to register 165 + channel. *)
Theorem SetupOutput_traffic output pllSource driveStrength conf
    phaseOffset w :
  0 <= output <= 2 ->
  0 <= driveStrength <= 3 ->
  ~ (OutputConfig.allowIntegerMode conf = 0
     /\ (OutputConfig.div conf < 8
         \/ (OutputConfig.div conf = 8 /\ OutputConfig.num conf = 0))) ->
  6 <= OutputConfig.div conf <= 2047 ->
  1 <= OutputConfig.denom conf < 2 ^ 20 ->
  0 <= OutputConfig.num conf <= OutputConfig.denom conf ->
  let P1 :=
    128 * OutputConfig.div conf
    + (128 * OutputConfig.num conf) / OutputConfig.denom conf - 512 in
  let P2 := (128 * OutputConfig.num conf) mod OutputConfig.denom conf in
  let clkControl :=
    12 + driveStrength + 16 * (OutputConfig.inverted conf mod 2)
    + (match pllSource with SI5351_PLL_B => 32 | SI5351_PLL_A => 0 end)
    + (if negb (OutputConfig.allowIntegerMode conf =? 0)
          && (OutputConfig.num conf =? 0)
       then 64 else 0) in
  0 <= P1 < 2 ^ 18 /\ 0 <= P2 < 2 ^ 20
  /\ si5351_SetupOutput Wire_endTransmission output pllSource driveStrength
       conf phaseOffset w =
     Some (0,
           w ++ (16 + output, clkControl)
                :: combine (block_addresses (42 + 8 * output))
                     (block_layout P1 P2 (OutputConfig.denom conf) 0
                        (OutputConfig.rdiv conf mod 8))
                ++ [(165 + output, phaseOffset mod 128)]).
Proof.
  intros Ho Hs Hg Hd Hz Hn P1 P2 clkControl.
  destruct (packed_fields_exact (OutputConfig.div conf)
              (OutputConfig.num conf) (OutputConfig.denom conf)
              ltac:(lia) Hz Hn) as (E1 & E2 & B1 & B2).
  fold P1 in E1, B1. fold P2 in E2, B2.
  split; [exact B1 |]. split; [exact B2 |].
  rewrite SetupOutput_traffic_code
    by (assumption || lia || (apply traps_pos; lia)).
  cbv zeta. rewrite E1, E2.
  rewrite (clkControl_value driveStrength (OutputConfig.inverted conf)
             pllSource _ Hs).
  rewrite (land_mod_pow2 (OutputConfig.rdiv conf) 3 0x7)
    by (reflexivity || lia).
  rewrite (land_mod_pow2 phaseOffset 7 0x7F) by (reflexivity || lia).
  reflexivity.
Qed.

End OutputTraffic.

Lemma SetupOutput_traffic_witness :
  (0 <= 0 <= 2 /\ 0 <= 1 <= 3
   /\ ~ (1 = 0 /\ (32 < 8 \/ (32 = 8 /\ 148148 = 0)))
   /\ 6 <= 32 <= 2047 /\ 1 <= 1037037 < 2 ^ 20 /\ 0 <= 148148 <= 1037037)
  /\ si5351_SetupOutput (fun _ => 0) 0 SI5351_PLL_A 1
       (OutputConfig.mk 1 32 148148 1037037 0 0) 0 [] =
     Some (0,
           [ (16, 13);
             (42, 0xD2); (43, 0xED); (44, 0); (45, 0x0E); (46, 0x12);
             (47, 0xF4); (48, 0x85); (49, 0x56);
             (165, 0) ]).
Proof.
  assert (Ho : 0 <= 0 <= 2) by lia.
  assert (Hs : 0 <= 1 <= 3) by lia.
  assert (Hg : ~ (1 = 0 /\ (32 < 8 \/ (32 = 8 /\ 148148 = 0)))) by lia.
  assert (Hd : 6 <= 32 <= 2047) by lia.
  assert (Hz : 1 <= 1037037 < 2 ^ 20) by (cbn; lia).
  assert (Hn : 0 <= 148148 <= 1037037) by lia.
  split; [exact (conj Ho (conj Hs (conj Hg (conj Hd (conj Hz Hn))))) |].
  exact (proj2 (proj2 (SetupOutput_traffic (fun _ => 0) 0 SI5351_PLL_A 1
                         (OutputConfig.mk 1 32 148148 1037037 0 0) 0 []
                         Ho Hs Hg Hd Hz Hn))).
Defined.

(** ** What the planners hand to the programming functions *)

Lemma Calc_solve_high_wide F pll out :
  81000000 <= F <= 500000000 ->
  let x := if F >=? 150000000 then 4 else if F >=? 100000000 then 6 else 8 in
  Calc_solve F pll out =
  Some (PLLConfig.mk (Z.quot (x * F) 25000000)
          (Z.quot (Z.rem (x * F) 25000000) 24) 1041666
          (PLLConfig.allowIntegerMode pll),
        OutputConfig.mk (OutputConfig.allowIntegerMode out) x 0 1
          (OutputConfig.rdiv out) (OutputConfig.inverted out)).
Proof.
  intros HF x. unfold Calc_solve.
  destruct (Z.ltb_spec F 81000000); [lia |].
  fold x.
  assert (Hx : 600000000 <= x * F <= 2000000000).
  { subst x. destruct (Z.geb_spec F 150000000); [lia |].
    destruct (Z.geb_spec F 100000000); lia. }
  change (Int32.add (Z.shiftr 25000000 20) 1) with 24.
  change (Int32.quot 25000000 24) with (Some 1041666).
  unfold Int32.mul.
  rewrite (wrap_small (x * F)) by (apply in_range_bounds; lia).
  rewrite (quot_some (x * F) 25000000), (rem_some (x * F) 25000000)
    by solve_quot.
  cbn [obind].
  rewrite (quot_some (Z.rem (x * F) 25000000) 24) by solve_quot.
  reflexivity.
Qed.

(** With a correction that does not overflow, [si5351_Calc] returns
    settings that allow integer mode and have positive denominators. *)
Lemma Calc_result_shape corr F pll out :
  - 13421772 <= corr <= 13421772 ->
  exists p o,
    si5351_Calc corr F pll out = Some (p, o)
    /\ OutputConfig.allowIntegerMode o = 1
    /\ 1 <= PLLConfig.denom p
    /\ 1 <= OutputConfig.denom o.
Proof.
  intros Hc. rewrite si5351_Calc_as_solve.
  pose proof (corrected_target_positive corr F Hc) as Hp. cbv zeta in Hp.
  set (Fc := Int32.wrap _) in *.
  destruct (Z.lt_ge_cases Fc 81000000) as [Hlo | Hhi].
  - rewrite Calc_solve_low by lia.
    destruct (low_branch_numerator Fc ltac:(lia)) as (_ & Hz & _).
    cbv zeta in Hz.
    eexists. eexists. split; [reflexivity |].
    cbn [OutputConfig.allowIntegerMode PLLConfig.denom OutputConfig.denom].
    lia.
  - rewrite Calc_solve_high_wide by lia.
    eexists. eexists. split; [reflexivity |].
    cbn [OutputConfig.allowIntegerMode PLLConfig.denom OutputConfig.denom].
    lia.
Qed.

Lemma corrected_IQ_target corr F :
  - 13421772 <= corr <= 13421772 ->
  let G := CalcIQ_clamp F in
  0 < Int32.wrap (G - Z.quot (Int32.wrap (Z.quot G 1000000 * corr)) 100)
    <= 113421772.
Proof.
  intros Hc G. pose proof (CalcIQ_clamp_bounds F) as HB. fold G in HB.
  rewrite apply_correction_exact by lia.
  unfold corrected_target.
  assert (Hq : 1 <= Z.quot G 1000000 <= 100
               /\ Z.quot G 1000000 * 1000000 <= G)
    by (Z.quot_rem_to_equations; lia).
  assert (Hm : Z.quot G 1000000 * corr
               <= Z.quot G 1000000 * 13421772) by nia.
  assert (Hm' : - (Z.quot G 1000000 * 13421772)
                <= Z.quot G 1000000 * corr) by nia.
  Z.quot_rem_to_equations; lia.
Qed.

Section Handover.

Variable Wire_endTransmission : bus -> Z.

(** X9: the settings of [si5351_CalcIQ], with a correction of at most
    13,421,772 in magnitude, handed to [si5351_SetupOutput] for channel
    0, 1 or 2 with the divider as phase offset (the 90 degree shift):
    when the corrected target is at most 100,000,000 the divider lies in
    [9, 127], the call returns 0 and its last write stores the divider
    unmasked in the phase register 165 + channel; when the corrected
    target exceeds 100,000,000 (the clamped target 100 MHz with a
    negative correction) the divider is 8 or 7 and the call is refused
    with code 2. *)
Theorem CalcIQ_output_handover corr F pll out :
  - 13421772 <= corr <= 13421772 ->
  exists Fclk p o,
    apply_correction corr (CalcIQ_clamp F) = Some Fclk
    /\ si5351_CalcIQ corr F pll out = Some (p, o)
    /\ forall output pllSource driveStrength w,
         0 <= output <= 2 ->
         (Fclk <= 100000000 ->
          9 <= OutputConfig.div o <= 127
          /\ exists t,
               si5351_SetupOutput Wire_endTransmission output pllSource
                 driveStrength o (OutputConfig.div o) w =
               Some (0, w ++ t ++ [(165 + output, OutputConfig.div o)]))
         /\ (100000000 < Fclk ->
             7 <= OutputConfig.div o <= 8
             /\ si5351_SetupOutput Wire_endTransmission output pllSource
                  driveStrength o (OutputConfig.div o) w = Some (2, w)).
Proof.
  intros Hc.
  pose proof (CalcIQ_clamp_bounds F) as HB.
  pose proof (corrected_IQ_target corr F Hc) as Hp. cbv zeta in Hp.
  unfold si5351_CalcIQ.
  rewrite apply_correction_eq by (apply in_range_bounds; lia).
  set (Fc := Int32.wrap _) in *.
  cbn [obind]. rewrite CalcIQ_solve_total.
  set (div := if Fc <? 4900000 then 127
              else if Fc <? 8000000 then Z.quot 625000000 Fc
              else Z.quot 900000000 Fc).
  eexists. eexists. eexists. split; [reflexivity |]. split; [reflexivity |].
  intros output pllSource driveStrength w Ho.
  cbn [OutputConfig.div].
  split.
  - intros Hle.
    assert (Hd : 9 <= div <= 127).
    { subst div. destruct (Z.ltb_spec Fc 4900000); [lia |].
      destruct (Z.ltb_spec Fc 8000000); Z.quot_rem_to_equations; nia. }
    split; [exact Hd |].
    rewrite SetupOutput_traffic_code; cbn [OutputConfig.allowIntegerMode
      OutputConfig.div OutputConfig.num OutputConfig.denom]; try lia;
      try (apply traps_pos; lia).
    rewrite (land_mod_pow2 div 7 0x7F) by (reflexivity || lia).
    rewrite Z.mod_small by (cbn; lia).
    eexists (_ :: _). cbn [app]. reflexivity.
  - intros Hgt.
    assert (Hd : 7 <= div <= 8).
    { subst div. destruct (Z.ltb_spec Fc 4900000); [lia |].
      destruct (Z.ltb_spec Fc 8000000); [lia |].
      Z.quot_rem_to_equations; nia. }
    split; [exact Hd |].
    apply SetupOutput_invalid_divider; cbn [OutputConfig.allowIntegerMode
      OutputConfig.div OutputConfig.num]; lia.
Qed.

End Handover.

Lemma CalcIQ_output_handover_witness :
  - 13421772 <= 0 <= 13421772
  /\ exists Fclk p o,
      apply_correction 0 (CalcIQ_clamp 7000000) = Some Fclk
      /\ si5351_CalcIQ 0 7000000 (PLLConfig.mk 0 0 0 0)
           (OutputConfig.mk 0 0 0 0 0 0) = Some (p, o).
Proof.
  assert (Hc : - 13421772 <= 0 <= 13421772) by lia.
  split; [exact Hc |].
  destruct (CalcIQ_output_handover (fun _ => 0) 0 7000000
              (PLLConfig.mk 0 0 0 0) (OutputConfig.mk 0 0 0 0 0 0) Hc)
    as (Fclk & p & o & E1 & E2 & _).
  exists Fclk, p, o. split; [exact E1 | exact E2].
Defined.

(** ** The per-channel setups *)

Lemma Some_pair_inj (A : Type) (a a' : A) (w w' : bus) :
  Some (a, w) = Some (a', w') -> a = a' /\ w = w'.
Proof. intros E. split; congruence. Qed.

Section ChannelSetups.

Variable Wire_endTransmission : bus -> Z.

(** The registers a call of [si5351_SetupOutput] that is not refused
    writes. *)
Lemma SetupOutput_success_writes output pllSource driveStrength conf
    phaseOffset w :
  0 <= output <= 2 ->
  ~ (OutputConfig.allowIntegerMode conf = 0
     /\ (OutputConfig.div conf < 8
         \/ (OutputConfig.div conf = 8 /\ OutputConfig.num conf = 0))) ->
  OutputConfig.div conf = 4
  \/ Int32.traps (Int32.mul 128 (OutputConfig.num conf))
       (OutputConfig.denom conf) = false ->
  exists t,
    si5351_SetupOutput Wire_endTransmission output pllSource driveStrength
      conf phaseOffset w = Some (0, w ++ t)
    /\ written t =
       (16 + output) :: block_addresses (42 + 8 * output) ++ [165 + output].
Proof.
  intros Ho Hr Hd.
  assert (W : forall c blk p,
             length blk = 8%nat ->
             written ((16 + output, c)
                      :: combine (block_addresses (42 + 8 * output)) blk
                      ++ [(165 + output, p)])
             = (16 + output) :: block_addresses (42 + 8 * output)
                 ++ [165 + output]).
  { intros c blk p Hlen.
    change (written ([(16 + output, c)]
                     ++ combine (block_addresses (42 + 8 * output)) blk
                     ++ [(165 + output, p)])
            = [16 + output] ++ block_addresses (42 + 8 * output)
                ++ [165 + output]).
    rewrite !written_app, written_block by exact Hlen. reflexivity. }
  destruct (Z.eq_dec (OutputConfig.div conf) 4) as [E4 | N4].
  - assert (Ha : OutputConfig.allowIntegerMode conf <> 0).
    { intros Ha. apply Hr. split; [exact Ha | lia]. }
    destruct (SetupOutput_div4_traffic Wire_endTransmission output
                pllSource driveStrength conf phaseOffset w Ho Ha E4)
      as [c Ec].
    eexists. split; [exact Ec |]. apply W. reflexivity.
  - destruct Hd as [E4 | Nz]; [contradiction |].
    eexists. split.
    + apply SetupOutput_traffic_code; assumption.
    + apply W. reflexivity.
Qed.

(** The registers one call of [si5351_SetupOutput] can write. *)
Lemma SetupOutput_writes_within output pllSource driveStrength conf
    phaseOffset w ret w' :
  0 <= output <= 2 ->
  si5351_SetupOutput Wire_endTransmission output pllSource driveStrength
    conf phaseOffset w = Some (ret, w') ->
  exists t,
    w' = w ++ t
    /\ (t = []
        \/ written t =
           (16 + output) :: block_addresses (42 + 8 * output)
             ++ [165 + output]).
Proof.
  intros Ho E.
  destruct (SetupOutput_cases Wire_endTransmission output pllSource
              driveStrength conf phaseOffset w)
    as [[Hc Ec] | [(Hc & Hr & Ec) | [(Hc & Hr & _) | (Hc & Hr & Ec)]]].
  - lia.
  - rewrite Ec in E. apply Some_pair_inj in E. destruct E as [_ <-].
    exists []. rewrite app_nil_r. tauto.
  - destruct (Z.eq_dec (OutputConfig.div conf) 4) as [E4 | N4].
    + destruct (SetupOutput_success_writes output pllSource driveStrength
                  conf phaseOffset w Ho Hr (or_introl E4)) as (t & Et & Wt).
      rewrite Et in E. apply Some_pair_inj in E. destruct E as [_ <-].
      exists t. tauto.
    + destruct (Int32.traps (Int32.mul 128 (OutputConfig.num conf))
                  (OutputConfig.denom conf)) eqn:Nz.
      { rewrite SetupOutput_division_traps in E by (assumption || lia).
        discriminate. }
      destruct (SetupOutput_success_writes output pllSource driveStrength
                  conf phaseOffset w Ho Hr (or_intror Nz)) as (t & Et & Wt).
      rewrite Et in E. apply Some_pair_inj in E. destruct E as [_ <-].
      exists t. tauto.
  - rewrite Ec in E. discriminate.
Qed.

(** The registers one call of [si5351_SetupPLL] writes. *)
Lemma SetupPLL_writes pll conf w :
  Int32.traps (Int32.mul 128 (PLLConfig.num conf)) (PLLConfig.denom conf)
  = false ->
  exists t flag,
    si5351_SetupPLL Wire_endTransmission pll conf w = Some (tt, w ++ t)
    /\ (flag = []
        \/ flag =
           [match pll with SI5351_PLL_A => 22 | SI5351_PLL_B => 23 end])
    /\ written t =
       flag
         ++ block_addresses
              (match pll with SI5351_PLL_A => 26 | SI5351_PLL_B => 34 end)
         ++ [177].
Proof.
  intros Nz.
  pose proof (SetupPLL_traffic Wire_endTransmission pll conf w Nz) as T.
  cbv zeta in T. set (blk := block_layout _ _ _ _ _) in T.
  assert (Hlen : length blk = 8%nat) by reflexivity.
  clearbody blk.
  destruct (negb (PLLConfig.allowIntegerMode conf =? 0)
            && (PLLConfig.num conf =? 0)
            && (Z.rem (PLLConfig.mult conf) 2 =? 0)).
  - eexists.
    exists [match pll with SI5351_PLL_A => 22 | SI5351_PLL_B => 23 end].
    split; [exact T |]. split; [right; reflexivity |].
    rewrite !written_app, written_block by exact Hlen. reflexivity.
  - eexists. exists []. split; [exact T |]. split; [left; reflexivity |].
    rewrite !written_app, written_block by exact Hlen. reflexivity.
Qed.

(** The common body of [si5351_SetupCLK0] and [si5351_SetupCLK2], with a
    correction that does not overflow. *)
Lemma SetupCLK_traffic pll output corr F driveStrength pll_conf out_conf w :
  - 13421772 <= corr <= 13421772 ->
  0 <= output <= 2 ->
  exists t flag,
    i2c_bind (i2c_lift (si5351_Calc corr F pll_conf out_conf))
      (fun confs =>
         let '(pll_conf, out_conf) := confs in
         i2c_bind (si5351_SetupPLL Wire_endTransmission pll pll_conf)
           (fun _ =>
              i2c_bind
                (si5351_SetupOutput Wire_endTransmission output pll
                   driveStrength out_conf 0)
                (fun _ => i2c_ret tt))) w = Some (tt, w ++ t)
    /\ (flag = []
        \/ flag =
           [match pll with SI5351_PLL_A => 22 | SI5351_PLL_B => 23 end])
    /\ written t =
       flag
         ++ block_addresses
              (match pll with SI5351_PLL_A => 26 | SI5351_PLL_B => 34 end)
         ++ [177]
         ++ (16 + output) :: block_addresses (42 + 8 * output)
         ++ [165 + output].
Proof.
  intros Hc Ho.
  destruct (Calc_result_shape corr F pll_conf out_conf Hc)
    as (p & o & E & Ha & Hp & Hz).
  assert (Tp : Int32.traps (Int32.mul 128 (PLLConfig.num p))
                 (PLLConfig.denom p) = false) by (apply traps_pos; lia).
  assert (To : Int32.traps (Int32.mul 128 (OutputConfig.num o))
                 (OutputConfig.denom o) = false) by (apply traps_pos; lia).
  destruct (SetupPLL_writes pll p w Tp) as (t1 & flag & E1 & Hf & W1).
  destruct (SetupOutput_success_writes output pll driveStrength o 0
              (w ++ t1) Ho ltac:(lia) (or_intror To)) as (t2 & E2 & W2).
  exists (t1 ++ t2), flag.
  split; [| split; [exact Hf |]].
  - unfold i2c_bind at 1. rewrite E. cbn [i2c_lift].
    unfold i2c_bind at 1. rewrite E1.
    unfold i2c_bind at 1. rewrite E2. cbn [i2c_ret].
    now rewrite app_assoc.
  - rewrite written_app, W1, W2, <- !app_assoc. reflexivity.
Qed.

(** X10: with a correction of at most 13,421,772 in magnitude,
    [si5351_SetupCLK0] and [si5351_SetupCLK2] return for every target,
    every drive strength and every content of their uninitialised local
    structures, and write, in this order: the integer-mode flag register
    (22, resp. 23) or nothing; the PLL block 26..33 (34..41); the reset
    register 177; the control register 16 (18); the multisynth block
    42..49 (58..65); the phase register 165 (167). *)
Theorem SetupCLK_registers corr F driveStrength pll_conf out_conf w :
  - 13421772 <= corr <= 13421772 ->
  (exists t flag,
      si5351_SetupCLK0 Wire_endTransmission corr F driveStrength pll_conf
        out_conf w = Some (tt, w ++ t)
      /\ (flag = [] \/ flag = [22])
      /\ written t =
         flag ++ [26; 27; 28; 29; 30; 31; 32; 33; 177; 16;
                  42; 43; 44; 45; 46; 47; 48; 49; 165])
  /\ (exists t flag,
         si5351_SetupCLK2 Wire_endTransmission corr F driveStrength pll_conf
           out_conf w = Some (tt, w ++ t)
         /\ (flag = [] \/ flag = [23])
         /\ written t =
            flag ++ [34; 35; 36; 37; 38; 39; 40; 41; 177; 18;
                     58; 59; 60; 61; 62; 63; 64; 65; 167]).
Proof.
  intros Hc. split.
  - exact (SetupCLK_traffic SI5351_PLL_A 0 corr F driveStrength pll_conf
             out_conf w Hc ltac:(lia)).
  - exact (SetupCLK_traffic SI5351_PLL_B 2 corr F driveStrength pll_conf
             out_conf w Hc ltac:(lia)).
Qed.

End ChannelSetups.

(** ** What the setups leave alone *)

Section Isolation.

Variable Wire_endTransmission : bus -> Z.

(** Whatever the correction, a per-channel setup that returns has
    written to its own registers only. *)
Lemma SetupCLK_writes_within pll output corr F driveStrength pll_conf
    out_conf w w' :
  0 <= output <= 2 ->
  i2c_bind (i2c_lift (si5351_Calc corr F pll_conf out_conf))
    (fun confs =>
       let '(pll_conf, out_conf) := confs in
       i2c_bind (si5351_SetupPLL Wire_endTransmission pll pll_conf)
         (fun _ =>
            i2c_bind
              (si5351_SetupOutput Wire_endTransmission output pll
                 driveStrength out_conf 0)
              (fun _ => i2c_ret tt))) w = Some (tt, w') ->
  exists t,
    w' = w ++ t
    /\ forall reg,
         In reg (written t) ->
         In reg
           ((match pll with SI5351_PLL_A => 22 | SI5351_PLL_B => 23 end)
            :: block_addresses
                 (match pll with SI5351_PLL_A => 26 | SI5351_PLL_B => 34 end)
            ++ [177]
            ++ (16 + output) :: block_addresses (42 + 8 * output)
            ++ [165 + output]).
Proof.
  intros Ho E. unfold i2c_bind at 1 in E.
  destruct (si5351_Calc corr F pll_conf out_conf) as [[p o] |];
    cbn [i2c_lift] in E; [| discriminate].
  unfold i2c_bind at 1 in E.
  destruct (Int32.traps (Int32.mul 128 (PLLConfig.num p))
              (PLLConfig.denom p)) eqn:Nz.
  { rewrite SetupPLL_division_traps in E by exact Nz. discriminate. }
  destruct (SetupPLL_writes Wire_endTransmission pll p w Nz)
    as (t1 & flag & E1 & Hf & W1).
  rewrite E1 in E. unfold i2c_bind at 1 in E.
  destruct (si5351_SetupOutput Wire_endTransmission output pll driveStrength
              o 0 (w ++ t1)) as [[ret w2] |] eqn:E2; [| discriminate].
  cbn [i2c_ret] in E. apply Some_pair_inj in E. destruct E as [_ <-].
  destruct (SetupOutput_writes_within Wire_endTransmission _ _ _ _ _ _ _ _
              Ho E2) as (t2 & -> & W2).
  exists (t1 ++ t2). split; [now rewrite app_assoc |].
  intros reg Hin. rewrite written_app, W1 in Hin.
  apply in_app_or in Hin. destruct Hin as [Hin | Hin].
  - apply in_app_or in Hin. destruct Hin as [Hin | Hin].
    + destruct Hf as [-> | ->]; [contradiction |].
      left. destruct Hin as [<- | []]. reflexivity.
    + right. rewrite app_assoc. apply in_or_app. left. exact Hin.
  - destruct W2 as [-> | W2]; [contradiction |].
    rewrite W2 in Hin. right.
    apply in_or_app. right. apply in_or_app. right. exact Hin.
Qed.

Lemma SetupCLK0_untouched corr F driveStrength pll_conf out_conf w w' reg :
  si5351_SetupCLK0 Wire_endTransmission corr F driveStrength pll_conf
    out_conf w = Some (tt, w') ->
  ~ In reg [22; 26; 27; 28; 29; 30; 31; 32; 33; 177; 16;
            42; 43; 44; 45; 46; 47; 48; 49; 165] ->
  last_write reg w' = last_write reg w.
Proof.
  intros E Hn.
  destruct (SetupCLK_writes_within SI5351_PLL_A 0 corr F driveStrength
              pll_conf out_conf w w' ltac:(lia) E) as (t & -> & Ht).
  apply last_write_untouched. intros Hin. apply Hn. exact (Ht reg Hin).
Qed.

Lemma SetupCLK2_untouched corr F driveStrength pll_conf out_conf w w' reg :
  si5351_SetupCLK2 Wire_endTransmission corr F driveStrength pll_conf
    out_conf w = Some (tt, w') ->
  ~ In reg [23; 34; 35; 36; 37; 38; 39; 40; 41; 177; 18;
            58; 59; 60; 61; 62; 63; 64; 65; 167] ->
  last_write reg w' = last_write reg w.
Proof.
  intros E Hn.
  destruct (SetupCLK_writes_within SI5351_PLL_B 2 corr F driveStrength
              pll_conf out_conf w w' ltac:(lia) E) as (t & -> & Ht).
  apply last_write_untouched. intros Hin. apply Hn. exact (Ht reg Hin).
Qed.

(** X11: for every correction, a call of [si5351_SetupCLK0] that returns
    leaves every register other than 16, 22, 26..33, 42..49, 165 and 177
    as it was, and a call of [si5351_SetupCLK2] every register other
    than 18, 23, 34..41, 58..65, 167 and 177: apart from the PLL reset
    register 177 neither touches a register of the other, and neither
    writes the output enable register 3. *)
Theorem SetupCLK_isolation corr F driveStrength pll_conf out_conf w w' reg :
  (si5351_SetupCLK0 Wire_endTransmission corr F driveStrength pll_conf
     out_conf w = Some (tt, w') ->
   ~ In reg [22; 26; 27; 28; 29; 30; 31; 32; 33; 177; 16;
             42; 43; 44; 45; 46; 47; 48; 49; 165] ->
   last_write reg w' = last_write reg w)
  /\ (si5351_SetupCLK2 Wire_endTransmission corr F driveStrength pll_conf
        out_conf w = Some (tt, w') ->
      ~ In reg [23; 34; 35; 36; 37; 38; 39; 40; 41; 177; 18;
                58; 59; 60; 61; 62; 63; 64; 65; 167] ->
      last_write reg w' = last_write reg w).
Proof.
  split.
  - apply SetupCLK0_untouched.
  - apply SetupCLK2_untouched.
Qed.

(** ** The output enable register *)

Lemma lnot_byte enabled :
  0 <= enabled <= 255 -> uint8 (Z.lnot enabled) = 255 - enabled.
Proof.
  intros H. unfold uint8, Z.lnot. Z.div_mod_to_equations. lia.
Qed.

(** X12: for an 8-bit mask, [si5351_EnableOutputs] writes one byte to
    register 3, the complement 255 - enabled of the mask: bit i of the
    byte is set exactly when bit i of the mask is clear, so it disables
    every channel the mask does not name. *)
Theorem EnableOutputs_complement enabled w :
  0 <= enabled <= 255 ->
  si5351_EnableOutputs Wire_endTransmission enabled w =
  Some (tt, w ++ [(3, 255 - enabled)])
  /\ forall i, 0 <= i < 8 ->
       Z.testbit (255 - enabled) i = negb (Z.testbit enabled i).
Proof.
  intros H. split.
  - unfold si5351_EnableOutputs, i2c_bind, i2c_ret, si5351_write.
    rewrite lnot_byte by exact H. reflexivity.
  - intros i Hi. rewrite <- lnot_byte by exact H.
    unfold uint8. change 256 with (2 ^ 8).
    rewrite Z.mod_pow2_bits_low by lia.
    apply Z.lnot_spec. lia.
Qed.

End Isolation.

Section Initialisation.

Variable Wire_endTransmission : bus -> Z.
Variable SI5351_CRYSTAL_LOAD_10PF : Z.

Lemma si5351_Init_traffic correction i2c_sda i2c_scl w :
  si5351_Init Wire_endTransmission SI5351_CRYSTAL_LOAD_10PF correction
    i2c_sda i2c_scl w =
  Some (correction,
        w ++ [ (3, 255); (16, 128); (17, 128); (18, 128); (19, 128);
               (20, 128); (21, 128); (22, 128); (23, 128);
               (183, uint8 SI5351_CRYSTAL_LOAD_10PF) ]).
Proof.
  unfold si5351_Init, i2c_bind, i2c_ret, si5351_write.
  rewrite <- !app_assoc. reflexivity.
Qed.

(** X13: [si5351_Init] returns the correction it stores and, whatever
    was written before, leaves register 3 at 0xFF (every output
    disabled) and the control registers 16..23 at 0x80 (every driver
    powered down, both integer-mode flags cleared).  A
    [si5351_SetupCLK0] and a [si5351_SetupCLK2] that follow do not change
    that for register 3 and for the unused channels 1, 3, 4 and 5: the
    outputs stay disabled until [si5351_EnableOutputs] is called. *)
Theorem Init_then_setups correction i2c_sda i2c_scl w :
  exists w0,
    si5351_Init Wire_endTransmission SI5351_CRYSTAL_LOAD_10PF correction
      i2c_sda i2c_scl w = Some (correction, w0)
    /\ last_write 3 w0 = Some 255
    /\ (forall reg, 16 <= reg <= 23 -> last_write reg w0 = Some 128)
    /\ forall F0 ds0 p0 o0 F2 ds2 p2 o2 w1 w2,
         si5351_SetupCLK0 Wire_endTransmission correction F0 ds0 p0 o0 w0
           = Some (tt, w1) ->
         si5351_SetupCLK2 Wire_endTransmission correction F2 ds2 p2 o2 w1
           = Some (tt, w2) ->
         last_write 3 w2 = Some 255
         /\ forall reg, In reg [17; 19; 20; 21] ->
              last_write reg w2 = Some 128.
Proof.
  eexists. split; [apply si5351_Init_traffic |].
  assert (H3 : last_write 3
                 (w ++ [ (3, 255); (16, 128); (17, 128); (18, 128);
                         (19, 128); (20, 128); (21, 128); (22, 128);
                         (23, 128);
                         (183, uint8 SI5351_CRYSTAL_LOAD_10PF) ])
               = Some 255)
    by (rewrite last_write_app; reflexivity).
  assert (Hc : forall reg, 16 <= reg <= 23 ->
               last_write reg
                 (w ++ [ (3, 255); (16, 128); (17, 128); (18, 128);
                         (19, 128); (20, 128); (21, 128); (22, 128);
                         (23, 128);
                         (183, uint8 SI5351_CRYSTAL_LOAD_10PF) ])
               = Some 128).
  { intros reg Hr. rewrite last_write_app.
    assert (Hreg : reg = 16 \/ reg = 17 \/ reg = 18 \/ reg = 19 \/ reg = 20
                   \/ reg = 21 \/ reg = 22 \/ reg = 23) by lia.
    destruct Hreg as [-> | [-> | [-> | [-> | [-> | [-> | [-> | ->]]]]]]];
      reflexivity. }
  split; [exact H3 |]. split; [exact Hc |].
  intros F0 ds0 p0 o0 F2 ds2 p2 o2 w1 w2 E0 E2.
  assert (K : forall reg, In reg [3; 17; 19; 20; 21] ->
              last_write reg w2 =
              last_write reg
                (w ++ [ (3, 255); (16, 128); (17, 128); (18, 128);
                        (19, 128); (20, 128); (21, 128); (22, 128);
                        (23, 128);
                        (183, uint8 SI5351_CRYSTAL_LOAD_10PF) ])).
  { intros reg Hr.
    rewrite (SetupCLK2_untouched Wire_endTransmission correction F2
               ds2 p2 o2 w1 w2 reg E2) by (cbn in *; lia).
    apply (SetupCLK0_untouched Wire_endTransmission correction F0
             ds0 p0 o0 _ w1 reg E0).
    cbn in *. lia. }
  split.
  - rewrite K by (cbn; lia). exact H3.
  - intros reg Hr. rewrite K by (cbn in *; lia). apply Hc. cbn in Hr. lia.
Qed.

End Initialisation.

(** ** The planners' results fit the encoder *)

Lemma corrected_target_lower corr F :
  - 13421772 <= corr <= 13421772 ->
  let F1 :=
    if Calc_clamp F <? 1000000 then 64 * Calc_clamp F else Calc_clamp F in
  512000 <= Int32.wrap
              (F1 - Z.quot (Int32.wrap (Z.quot F1 1000000 * corr)) 100).
Proof.
  intros Hc F1. pose proof (Calc_clamp_bounds F) as HB.
  assert (H1 : 512000 <= F1 <= 160000000).
  { subst F1. destruct (Z.ltb_spec (Calc_clamp F) 1000000); lia. }
  rewrite apply_correction_exact by lia.
  unfold corrected_target.
  assert (Hq : 0 <= Z.quot F1 1000000 <= 160
               /\ Z.quot F1 1000000 * 1000000 <= F1)
    by (Z.quot_rem_to_equations; lia).
  assert (Hm : Z.quot F1 1000000 * corr
               <= Z.quot F1 1000000 * 13421772) by nia.
  Z.quot_rem_to_equations; lia.
Qed.

Lemma corrected_IQ_target_lower corr F :
  - 13421772 <= corr <= 13421772 ->
  let G := CalcIQ_clamp F in
  1265782 <= Int32.wrap
               (G - Z.quot (Int32.wrap (Z.quot G 1000000 * corr)) 100).
Proof.
  intros Hc G. pose proof (CalcIQ_clamp_bounds F) as HB. fold G in HB.
  rewrite apply_correction_exact by lia.
  unfold corrected_target.
  assert (Hq : 1 <= Z.quot G 1000000 <= 100
               /\ Z.quot G 1000000 * 1000000 <= G)
    by (Z.quot_rem_to_equations; lia).
  assert (Hm : Z.quot G 1000000 * corr
               <= Z.quot G 1000000 * 13421772) by nia.
  Z.quot_rem_to_equations; lia.
Qed.

(** X14: with a correction of at most 13,421,772 in magnitude, both
    planners return, for every target, settings within the ranges the
    encoder handles without loss: a PLL multiplier in [24, 36]
    ([6, 36] for [si5351_CalcIQ]), fractions with
    0 <= num <= denom < 2^20, and an output divider that is 4 or lies in
    [6, 1757] for [si5351_Calc], with integer mode allowed and an
    R divider exponent of 0 or 6. *)
Theorem planner_results_encodable corr F pll out :
  - 13421772 <= corr <= 13421772 ->
  (exists p o,
      si5351_Calc corr F pll out = Some (p, o)
      /\ 24 <= PLLConfig.mult p <= 36
      /\ 0 <= PLLConfig.num p <= PLLConfig.denom p
      /\ 1 <= PLLConfig.denom p < 2 ^ 20
      /\ (OutputConfig.div o = 4 \/ 6 <= OutputConfig.div o <= 1757)
      /\ 0 <= OutputConfig.num o <= OutputConfig.denom o
      /\ 1 <= OutputConfig.denom o < 2 ^ 20
      /\ OutputConfig.allowIntegerMode o = 1
      /\ (OutputConfig.rdiv o = 0 \/ OutputConfig.rdiv o = 6))
  /\ (exists p o,
         si5351_CalcIQ corr F pll out = Some (p, o)
         /\ 6 <= PLLConfig.mult p <= 36
         /\ 0 <= PLLConfig.num p <= PLLConfig.denom p
         /\ 1 <= PLLConfig.denom p < 2 ^ 20).
Proof.
  intros Hc. change (2 ^ 20) with 1048576. split.
  - rewrite si5351_Calc_as_solve.
    pose proof (corrected_target_positive corr F Hc) as Hp.
    pose proof (corrected_target_lower corr F Hc) as Hl.
    cbv zeta in Hp, Hl.
    set (Fc := Int32.wrap _) in *.
    destruct (Z.lt_ge_cases Fc 81000000) as [Hlo | Hhi].
    + rewrite Calc_solve_low by lia.
      destruct (low_branch_numerator Fc ltac:(lia)) as ((Hy0 & Hyz) & Hz & _).
      cbv zeta in Hy0, Hyz, Hz.
      destruct (shiftr20_bounds Fc ltac:(lia)) as [Hs0 Hs].
      assert (Hzu : Z.quot Fc (Z.shiftr Fc 20 + 1) < 1048576)
        by (apply Z.quot_lt_upper_bound; lia).
      assert (Hx : 11 <= Z.quot 900000000 Fc <= 1757)
        by (Z.quot_rem_to_equations; nia).
      eexists. eexists. split; [reflexivity |].
      cbn [PLLConfig.mult PLLConfig.num PLLConfig.denom OutputConfig.div
           OutputConfig.num OutputConfig.denom OutputConfig.rdiv
           OutputConfig.allowIntegerMode].
      unfold SI5351_R_DIV_64, SI5351_R_DIV_1.
      destruct (Calc_clamp F <? 1000000); lia.
    + rewrite Calc_solve_high_wide by lia.
      eexists. eexists. split; [reflexivity |].
      cbn [PLLConfig.mult PLLConfig.num PLLConfig.denom OutputConfig.div
           OutputConfig.num OutputConfig.denom OutputConfig.rdiv
           OutputConfig.allowIntegerMode].
      unfold SI5351_R_DIV_64, SI5351_R_DIV_1.
      destruct (Z.geb_spec Fc 150000000);
        [| destruct (Z.geb_spec Fc 100000000)];
        destruct (Calc_clamp F <? 1000000);
        repeat split; try lia; Z.quot_rem_to_equations; lia.
  - pose proof (CalcIQ_clamp_bounds F) as HB.
    pose proof (corrected_IQ_target corr F Hc) as Hp.
    pose proof (corrected_IQ_target_lower corr F Hc) as Hl.
    cbv zeta in Hp, Hl.
    unfold si5351_CalcIQ.
    rewrite apply_correction_eq by (apply in_range_bounds; lia).
    set (Fc := Int32.wrap _) in *.
    cbn [obind]. rewrite CalcIQ_solve_total.
    set (div := if Fc <? 4900000 then 127
                else if Fc <? 8000000 then Z.quot 625000000 Fc
                else Z.quot 900000000 Fc).
    assert (Hn : 160000000 <= Fc * div <= 900000000).
    { subst div. destruct (Z.ltb_spec Fc 4900000); [lia |].
      destruct (Z.ltb_spec Fc 8000000); Z.quot_rem_to_equations; nia. }
    unfold Int32.mul.
    rewrite (wrap_small (Fc * div)) by (apply in_range_bounds; lia).
    rewrite !wrap_small by solve_quot.
    eexists. eexists. split; [reflexivity |].
    cbn [PLLConfig.mult PLLConfig.num PLLConfig.denom].
    repeat split; try lia; Z.quot_rem_to_equations; lia.
Qed.

Lemma planner_results_encodable_witness :
  - 13421772 <= 970 <= 13421772
  /\ exists p o,
      si5351_Calc 970 10000097 (PLLConfig.mk 0 0 0 0)
        (OutputConfig.mk 0 0 0 0 0 0) = Some (p, o)
      /\ 24 <= PLLConfig.mult p <= 36.
Proof.
  assert (Hc : - 13421772 <= 970 <= 13421772) by lia.
  split; [exact Hc |].
  destruct (proj1 (planner_results_encodable 970 10000097
                     (PLLConfig.mk 0 0 0 0) (OutputConfig.mk 0 0 0 0 0 0)
                     Hc)) as (p & o & E & Hm & _).
  exists p, o. split; [exact E | exact Hm].
Defined.

(** ** Concrete runs *)

Lemma SetupPLL_fields_witness :
  (4 <= 36 <= 2047 /\ 1 <= 1 < 2 ^ 20 /\ 0 <= 0 <= 1)
  /\ si5351_SetupPLL (fun _ => 0) SI5351_PLL_A (PLLConfig.mk 36 0 1 1) [] =
     Some (tt,
           [ (22, 192);
             (26, 0); (27, 1); (28, 0); (29, 16); (30, 0); (31, 0);
             (32, 0); (33, 0);
             (177, 160) ]).
Proof.
  assert (Hm : 4 <= 36 <= 2047) by lia.
  assert (Hd : 1 <= 1 < 2 ^ 20) by (cbn; lia).
  assert (Hn : 0 <= 0 <= 1) by lia.
  split; [exact (conj Hm (conj Hd Hn)) |].
  exact (proj2 (proj2 (proj2 (SetupPLL_fields (fun _ => 0) SI5351_PLL_A
                                (PLLConfig.mk 36 0 1 1) []) Hm Hd Hn))).
Defined.

Lemma SetupPLL_integer_flag_witness :
  si5351_SetupPLL (fun _ => 0) SI5351_PLL_A
    (PLLConfig.mk 34 583333 1041666 1) [(22, 192)] =
  Some (tt,
        [ (22, 192);
          (26, 0xE5); (27, 0x02); (28, 0); (29, 0x0F); (30, 0x47);
          (31, 0xFA); (32, 0xCE); (33, 0xF2);
          (177, 160) ])
  /\ last_write 22
       [ (22, 192);
         (26, 0xE5); (27, 0x02); (28, 0); (29, 0x0F); (30, 0x47);
         (31, 0xFA); (32, 0xCE); (33, 0xF2);
         (177, 160) ] = last_write 22 [(22, 192)].
Proof.
  assert (E : si5351_SetupPLL (fun _ => 0) SI5351_PLL_A
                (PLLConfig.mk 34 583333 1041666 1) [(22, 192)] =
              Some (tt,
                    [ (22, 192);
                      (26, 0xE5); (27, 0x02); (28, 0); (29, 0x0F);
                      (30, 0x47); (31, 0xFA); (32, 0xCE); (33, 0xF2);
                      (177, 160) ])) by reflexivity.
  split; [exact E |].
  exact (proj1 (SetupPLL_integer_flag (fun _ => 0) SI5351_PLL_A
                  (PLLConfig.mk 34 583333 1041666 1) [(22, 192)] _ E)).
Defined.

Lemma SetupCLK_registers_witness :
  - 13421772 <= 0 <= 13421772
  /\ exists t flag,
      si5351_SetupCLK0 (fun _ => 0) 0 28000000 1 (PLLConfig.mk 0 0 0 0)
        (OutputConfig.mk 0 0 0 0 0 0) [] = Some (tt, [] ++ t)
      /\ (flag = [] \/ flag = [22])
      /\ written t =
         flag ++ [26; 27; 28; 29; 30; 31; 32; 33; 177; 16;
                  42; 43; 44; 45; 46; 47; 48; 49; 165].
Proof.
  assert (Hc : - 13421772 <= 0 <= 13421772) by lia.
  split; [exact Hc |].
  exact (proj1 (SetupCLK_registers (fun _ => 0) 0 28000000 1
                  (PLLConfig.mk 0 0 0 0) (OutputConfig.mk 0 0 0 0 0 0) []
                  Hc)).
Defined.

Lemma SetupCLK_isolation_witness :
  exists w',
    si5351_SetupCLK2 (fun _ => 0) 0 144000000 1 (PLLConfig.mk 0 0 0 0)
      (OutputConfig.mk 0 0 0 0 0 0) [(16, 77); (3, 255)] = Some (tt, w')
    /\ ~ In 16 [23; 34; 35; 36; 37; 38; 39; 40; 41; 177; 18;
                58; 59; 60; 61; 62; 63; 64; 65; 167]
    /\ last_write 16 w' = last_write 16 [(16, 77); (3, 255)].
Proof.
  destruct (SetupCLK_traffic (fun _ => 0) SI5351_PLL_B 2 0 144000000 1
              (PLLConfig.mk 0 0 0 0) (OutputConfig.mk 0 0 0 0 0 0)
              [(16, 77); (3, 255)] ltac:(lia) ltac:(lia))
    as (t & flag & E & _).
  assert (Hn : ~ In 16 [23; 34; 35; 36; 37; 38; 39; 40; 41; 177; 18;
                        58; 59; 60; 61; 62; 63; 64; 65; 167])
    by (cbn; lia).
  eexists. split; [exact E |]. split; [exact Hn |].
  exact (proj2 (SetupCLK_isolation (fun _ => 0) 0 144000000 1
                  (PLLConfig.mk 0 0 0 0) (OutputConfig.mk 0 0 0 0 0 0)
                  [(16, 77); (3, 255)] _ 16) E Hn).
Defined.

Lemma EnableOutputs_complement_witness :
  0 <= 5 <= 255
  /\ si5351_EnableOutputs (fun _ => 0) 5 [] = Some (tt, [(3, 250)]).
Proof.
  assert (H : 0 <= 5 <= 255) by lia.
  split; [exact H |].
  exact (proj1 (EnableOutputs_complement (fun _ => 0) 5 [] H)).
Defined.

Lemma Init_then_setups_witness :
  exists w0 w1 w2,
    si5351_Init (fun _ => 0) 192 0 0 0 [] = Some (0, w0)
    /\ si5351_SetupCLK0 (fun _ => 0) 0 28000000 1 (PLLConfig.mk 0 0 0 0)
         (OutputConfig.mk 0 0 0 0 0 0) w0 = Some (tt, w1)
    /\ si5351_SetupCLK2 (fun _ => 0) 0 144000000 1 (PLLConfig.mk 0 0 0 0)
         (OutputConfig.mk 0 0 0 0 0 0) w1 = Some (tt, w2)
    /\ last_write 3 w2 = Some 255.
Proof.
  destruct (Init_then_setups (fun _ => 0) 192 0 0 0 [])
    as (w0 & E & _ & _ & H).
  destruct (SetupCLK_traffic (fun _ => 0) SI5351_PLL_A 0 0 28000000 1
              (PLLConfig.mk 0 0 0 0) (OutputConfig.mk 0 0 0 0 0 0)
              w0 ltac:(lia) ltac:(lia))
    as (t1 & flag1 & E1 & _).
  destruct (SetupCLK_traffic (fun _ => 0) SI5351_PLL_B 2 0 144000000 1
              (PLLConfig.mk 0 0 0 0) (OutputConfig.mk 0 0 0 0 0 0)
              (w0 ++ t1) ltac:(lia) ltac:(lia))
    as (t2 & flag2 & E2 & _).
  exists w0, (w0 ++ t1), ((w0 ++ t1) ++ t2).
  split; [exact E |]. split; [exact E1 |]. split; [exact E2 |].
  exact (proj1 (H _ _ _ _ _ _ _ _ _ _ E1 E2)).
Defined.
